(** * Proofing box: a shallow embedding of [proofing_box.ino]

    The sketch runs on an AVR Arduino (the encoder sits on the external
    interrupt pins 2 and 3): [int] is 16 bits wide, [long] and
    [unsigned long] are 32 bits wide, and [float] (as well as [double]) is
    IEEE-754 binary32.  The globals of the sketch and the hardware it
    drives (relay pin, display line, clock) form one [state] record; every
    function of the sketch is a function on that record.  The constant
    [debug] of the sketch is [false]: the branches it guards, which print
    to the serial port, never run and are left out. *)

From Stdlib Require Import ZArith List String Ascii Bool Lia QArith.
From Stdlib Require Import DecimalString.
From Stdlib Require Import Floats.SpecFloat.
Import ListNotations.
Local Open Scope Z_scope.

(** ** Machine integers *)

Module CInt.

Definition wrap_signed (bits z : Z) : Z :=
  (z + 2 ^ (bits - 1)) mod 2 ^ bits - 2 ^ (bits - 1).

Definition INT_MIN : Z := -32768.
Definition INT_MAX : Z := 32767.
Definition LONG_MIN : Z := -2147483648.
Definition LONG_MAX : Z := 2147483647.

(** [int], [long], [unsigned long] and [byte] of avr-gcc. *)
Definition int (z : Z) : Z := wrap_signed 16 z.
Definition long (z : Z) : Z := wrap_signed 32 z.
Definition ulong (z : Z) : Z := z mod 2 ^ 32.
Definition byte (z : Z) : Z := z mod 2 ^ 8.

Definition in_int (z : Z) : bool := (INT_MIN <=? z) && (z <=? INT_MAX).

End CInt.

(** ** binary32 floating point *)

Definition float : Type := spec_float.

Module F32.

Definition prec : Z := 24.
Definition emax : Z := 128.

(** Conversion of an integer, round to nearest even. *)
Definition of_Z (z : Z) : float := binary_normalize prec emax z 0 false.

Definition add : float -> float -> float := SFadd prec emax.
Definition sub : float -> float -> float := SFsub prec emax.
Definition mul : float -> float -> float := SFmul prec emax.
Definition div : float -> float -> float := SFdiv prec emax.
Definition leb : float -> float -> bool := SFleb.
Definition ltb : float -> float -> bool := SFltb.

Definition isnan (f : float) : bool :=
  match f with S754_nan => true | _ => false end.

(** The decimal literal [n / d]: both parts are exact in binary32, and
    the division rounds once, as the compiler does. *)
Definition literal (n d : Z) : float := div (of_Z n) (of_Z d).

(** Truncation toward zero; [None] for NaN and the infinities. *)
Definition trunc (f : float) : option Z :=
  match f with
  | S754_zero _ => Some 0
  | S754_finite s m e => Some (cond_Zopp s (Z.shiftl (Zpos m) e))
  | _ => None
  end.

(** The rational number a finite float stands for. *)
Definition value (f : float) : option Q :=
  match f with
  | S754_zero _ => Some (0 # 1)%Q
  | S754_finite s m e =>
      Some (if 0 <=? e
            then (cond_Zopp s (Zpos m * 2 ^ e) # 1)%Q
            else (cond_Zopp s (Zpos m) # Z.to_pos (2 ^ (- e)))%Q)
  | _ => None
  end.

End F32.

(** ** Constants of the sketch *)

Definition disp_brightness : Z := 255.
Definition refresh_freq : Z := 100.
Definition enco_sensitivity : float := F32.literal 25 100.
Definition cushion_temp : float := F32.literal 20 10.

(** ** Formatting: [sprintf] with [%4d] and [%2d] *)

Definition decimal (n : Z) : string := NilZero.string_of_int (Z.to_int n).

Fixpoint spaces (n : nat) : string :=
  match n with
  | O => EmptyString
  | S k => String " " (spaces k)
  end.

Definition pad_left (width : nat) (s : string) : string :=
  (spaces (width - String.length s) ++ s)%string.

Definition sprintf_4d (n : Z) : string := pad_left 4 (decimal n).
Definition sprintf_T_2d (n : Z) : string := ("T " ++ pad_left 2 (decimal n))%string.

Definition bytes_of_string (s : string) : list Z :=
  map (fun c => Z.of_N (N_of_ascii c)) (list_ascii_of_string s).

(** ** State and environment *)

(** What the board does to the outside, in order. *)
Inductive event : Type :=
| Tx (b : Z)            (* one byte on the display line *)
| Relay (level : bool)  (* digitalWrite on the relay pin, [true] = HIGH *)
| Wait (ms : Z).        (* a blocking delay *)

Record state : Type := mkState {
  (* globals *)
  buff : string;
  enco_prev : Z;
  enco_value : Z;
  target_temp : float;
  setup_mode : bool;
  time_now : Z;
  current_temp : float;
  (* hardware *)
  relay_pin : bool;     (* output latch of pin_relay, [true] = HIGH *)
  clock : Z;            (* milliseconds since power-on *)
  trace : list event
}.

(** What the outside does to the board, as signals over time.  Time passes
    in [delay] only; the encoder interrupts that arrive during a delay are
    listed with the levels of the two encoder pins at each of them. *)
Record env : Type := mkEnv {
  sw_pin : Z -> bool;                       (* pin_enco_sw, [true] = HIGH *)
  dht_temperature : Z -> float;             (* dht.readTemperature(false) *)
  enco_edges : Z -> Z -> list (bool * bool) (* from a time, for a duration *)
}.

Definition set_buff (v : string) (s : state) : state :=
  mkState v (enco_prev s) (enco_value s) (target_temp s) (setup_mode s)
          (time_now s) (current_temp s) (relay_pin s) (clock s) (trace s).

Definition set_encoder (p v : Z) (t : float) (s : state) : state :=
  mkState (buff s) p v t (setup_mode s)
          (time_now s) (current_temp s) (relay_pin s) (clock s) (trace s).

Definition set_target_temp (t : float) (s : state) : state :=
  set_encoder (enco_prev s) (enco_value s) t s.

Definition set_setup_mode (b : bool) (s : state) : state :=
  mkState (buff s) (enco_prev s) (enco_value s) (target_temp s) b
          (time_now s) (current_temp s) (relay_pin s) (clock s) (trace s).

Definition set_time_now (t : Z) (s : state) : state :=
  mkState (buff s) (enco_prev s) (enco_value s) (target_temp s) (setup_mode s)
          t (current_temp s) (relay_pin s) (clock s) (trace s).

Definition set_current_temp (t : float) (s : state) : state :=
  mkState (buff s) (enco_prev s) (enco_value s) (target_temp s) (setup_mode s)
          (time_now s) t (relay_pin s) (clock s) (trace s).

Definition set_relay_pin (b : bool) (s : state) : state :=
  mkState (buff s) (enco_prev s) (enco_value s) (target_temp s) (setup_mode s)
          (time_now s) (current_temp s) b (clock s) (trace s).

Definition emit (es : list event) (s : state) : state :=
  mkState (buff s) (enco_prev s) (enco_value s) (target_temp s) (setup_mode s)
          (time_now s) (current_temp s) (relay_pin s) (clock s) (trace s ++ es).

Definition elapse (ms : Z) (s : state) : state :=
  mkState (buff s) (enco_prev s) (enco_value s) (target_temp s) (setup_mode s)
          (time_now s) (current_temp s) (relay_pin s) (clock s + ms) (trace s).

(** ** Display line *)

Definition disp_write (b : Z) (s : state) : state := emit [Tx (CInt.byte b)] s.

Definition disp_print (str : string) (s : state) : state :=
  emit (map Tx (bytes_of_string str)) s.

Definition clearDisplay (s : state) : state := disp_write 0x76 s.

Definition setBrightness (value : Z) (s : state) : state :=
  disp_write value (disp_write 0x7A s).

Definition setDecimals (decimals : Z) (s : state) : state :=
  disp_write decimals (disp_write 0x77 s).

(** ** Relay *)

Definition switchRelay (on : bool) (s : state) : state :=
  if on then emit [Relay true] (set_relay_pin true s)
  else emit [Relay false] (set_relay_pin false s).

Definition relayState (s : state) : bool := relay_pin s.

(** ** Encoder interrupt *)

(** Binary literals of the source, written as strings of bits. *)
Fixpoint bin_from (acc : Z) (s : string) : Z :=
  match s with
  | EmptyString => acc
  | String c rest => bin_from (2 * acc + (if Ascii.eqb c "1" then 1 else 0)) rest
  end.

Definition bin (s : string) : Z := bin_from 0 s.

Definition forward_codes : list Z := [bin "1101"; bin "0100"; bin "0010"; bin "1011"].
Definition backward_codes : list Z := [bin "1110"; bin "0111"; bin "0001"; bin "1000"].

Definition code_in (sum : Z) (codes : list Z) : bool := existsb (Z.eqb sum) codes.

(** [msb] and [lsb] are the levels [digitalRead] finds on the two encoder
    pins when the handler runs. *)
Definition updateEncoder (msb lsb : bool) (s : state) : state :=
  if negb (setup_mode s) then s
  else
    let enco := Z.lor (CInt.int (Z.shiftl (Z.b2z msb) 1)) (Z.b2z lsb) in
    let sum := Z.lor (CInt.int (Z.shiftl (enco_prev s) 2)) enco in
    let v1 := if code_in sum forward_codes
              then CInt.long (enco_value s + 1) else enco_value s in
    let v2 := if code_in sum backward_codes
              then CInt.long (v1 - 1) else v1 in
    set_encoder enco v2 (F32.mul (F32.of_Z v2) enco_sensitivity) s.

Section Sketch.

(** A conversion from [float] to [int] of a value that does not fit is
    undefined in C: the [int] it leaves is a parameter of the model. *)
Variable cast_overflow : float -> Z.

Definition float_to_int (f : float) : Z :=
  match F32.trunc f with
  | Some z => if CInt.in_int z then z else CInt.int (cast_overflow f)
  | None => CInt.int (cast_overflow f)
  end.

(** *** Display presenter *)

Definition writeCurrentTemperature (s : state) : state :=
  let s := setDecimals (bin "000010") s in
  let s := set_buff
             (sprintf_4d (float_to_int (F32.mul (current_temp s) (F32.of_Z 100)))) s in
  disp_print (buff s) s.

Definition writeTargetTemperature (s : state) : state :=
  let s := setDecimals (bin "010000") s in
  let s := set_buff (sprintf_T_2d (float_to_int (target_temp s))) s in
  disp_print (buff s) s.

Definition updateDisplay (s : state) : state :=
  if setup_mode s then writeTargetTemperature s else writeCurrentTemperature s.

Variable E : env.

(** *** Time *)

Definition millis (s : state) : Z := CInt.ulong (clock s).

Definition interrupts (edges : list (bool * bool)) (s : state) : state :=
  fold_left (fun s' p => updateEncoder (fst p) (snd p) s') edges s.

Definition delay (ms : Z) (s : state) : state :=
  emit [Wait ms] (elapse ms (interrupts (enco_edges E (clock s) ms) s)).

(** *** [setup]

    Opening the display line, starting the sensor, configuring the pins
    and attaching the handler leave no mark on the state. *)

Definition setup (s : state) : state :=
  let s := clearDisplay s in
  let s := setBrightness disp_brightness s in
  let s := switchRelay false s in
  let s := set_target_temp (F32.mul (F32.of_Z (enco_value s)) enco_sensitivity) s in
  let s := writeTargetTemperature s in
  delay 3000 s.

(** *** [loop], in the three parts of its body *)

(** Lines 75-79: the encoder switch. *)
Definition button (s : state) : state :=
  if negb (sw_pin E (clock s)) then
    let s := set_setup_mode (negb (setup_mode s)) s in
    let s := updateDisplay s in
    delay 1000 s
  else s.

(** Lines 103-106: the periodic refresh. *)
Definition refresh (s : state) : state :=
  if CInt.ulong (millis s - time_now s) >? refresh_freq then
    let s := set_time_now (millis s) s in
    updateDisplay s
  else s.

Definition cushioned_target (s : state) : float :=
  let cushion := F32.div cushion_temp (F32.literal 20 10) in
  if relayState s
  then F32.add (target_temp s) cushion
  else F32.sub (target_temp s) cushion.

Definition loop (s : state) : state :=
  let s := button s in
  if negb (setup_mode s) then
    let s := set_current_temp (dht_temperature E (clock s)) s in
    if F32.isnan (current_temp s) then
      disp_print "Err " s (* return *)
    else
      let s := switchRelay (F32.leb (current_temp s) (cushioned_target s)) s in
      refresh s
  else refresh s.

End Sketch.

(** The globals as their initialisers leave them, the relay pin low, the
    clock at zero. *)
Definition power_on : state :=
  {| buff := EmptyString;
     enco_prev := 0;
     enco_value := 100;
     target_temp := F32.of_Z 0;
     setup_mode := false;
     time_now := 0;
     current_temp := F32.of_Z 0;
     relay_pin := false;
     clock := 0;
     trace := [] |}.

(** One run of the board: [setup] from power-on, then iterations of [loop]
    and encoder interrupts in any order. *)
Inductive reachable (cast_overflow : float -> Z) (E : env) : state -> Prop :=
| reach_setup : reachable cast_overflow E (setup cast_overflow E power_on)
| reach_loop s :
    reachable cast_overflow E s -> reachable cast_overflow E (loop cast_overflow E s)
| reach_interrupt msb lsb s :
    reachable cast_overflow E s -> reachable cast_overflow E (updateEncoder msb lsb s).

(** [n] iterations of [loop] in a row. *)
Fixpoint loops (cast_overflow : float -> Z) (E : env) (n : nat) (s : state) : state :=
  match n with
  | O => s
  | S k => loops cast_overflow E k (loop cast_overflow E s)
  end.

(** ** Vocabulary of the specification *)

(** The pair of pin levels, first pin in the high bit. *)
Definition pin_pair (msb lsb : bool) : Z := 2 * Z.b2z msb + Z.b2z lsb.

(** Previous pair in the two high bits, current pair in the two low bits. *)
Definition transition_code (prev cur : Z) : Z := 4 * prev + cur.

(** The counter after the two tests of the handler on a transition code. *)
Definition next_counter (code v : Z) : Z :=
  let v1 := if code_in code forward_codes then CInt.long (v + 1) else v in
  if code_in code backward_codes then CInt.long (v1 - 1) else v1.

(** Half the cushion, as [loop] computes it. *)
Definition half_cushion : float := F32.div cushion_temp (F32.literal 20 10).

(** The mantissa of an integer below 2^24, shifted up to 24 digits. *)
Definition norm24 (p : positive) : positive :=
  match (Zpos (digits2_pos p) - 24)%Z with
  | Zneg k => Pos.iter xO p k
  | _ => p
  end.

(** [s'] differs from [s] in the three encoder globals at most. *)
Definition encoder_only (s s' : state) : Prop :=
  s' = set_encoder (enco_prev s') (enco_value s') (target_temp s') s.

(** [s'] has the three encoder globals of [s]. *)
Definition encoder_same (s s' : state) : Prop :=
  enco_prev s' = enco_prev s /\ enco_value s' = enco_value s /\
  target_temp s' = target_temp s.

(** What holds of the encoder globals all along a run. *)
Definition encoder_inv (s : state) : Prop :=
  0 <= enco_prev s < 4 /\
  CInt.LONG_MIN <= enco_value s <= CInt.LONG_MAX /\
  target_temp s = F32.mul (F32.of_Z (enco_value s)) enco_sensitivity.

(** The bytes of one display refresh: the decimal-point command, its mask,
    then the formatted buffer. *)
Definition display_frame (mask : Z) (payload : string) : list event :=
  Tx 0x77 :: Tx mask :: map Tx (bytes_of_string payload).

(** The environment [E] with another signal on the switch pin. *)
Definition with_switch (sw : Z -> bool) (E : env) : env :=
  mkEnv sw (dht_temperature E) (enco_edges E).

(** A quiet environment: switch released, 23.456 degrees, encoder at rest. *)
Definition quiet : env :=
  mkEnv (fun _ => true) (fun _ => F32.literal 23456 1000) (fun _ _ => []).

(** The same at 25.0 degrees. *)
Definition warm : env :=
  mkEnv (fun _ => true) (fun _ => F32.literal 250 10) (fun _ _ => []).

(** The same with the switch held down. *)
Definition held : env := with_switch (fun _ => false) quiet.

(** The same with the switch down at 3000 ms only. *)
Definition tapped : env := with_switch (fun t => negb (t =? 3000)) quiet.

(** The same with a sensor that does not answer. *)
Definition unplugged : env :=
  mkEnv (fun _ => true) (fun _ => S754_nan) (fun _ _ => []).

(** Conversions that overflow do not occur in the runs below. *)
Definition no_overflow : float -> Z := fun _ => 0.

(** The board after [setup] in the quiet environment: Run mode. *)
Definition booted : state := setup no_overflow quiet power_on.

(** The board after [setup] and one iteration with the switch held down:
    Setup mode. *)
Definition adjusting : state :=
  loop no_overflow held (setup no_overflow held power_on).

(** The bytes of the error token. *)
Definition err_token : list event := map Tx (bytes_of_string "Err ").

(** ** Vocabulary of the further properties *)

(** [f] holds of the [n] integers from [lo] on. *)
Fixpoint all_from (f : Z -> bool) (lo : Z) (n : nat) : bool :=
  match n with
  | O => true
  | S k => f lo && all_from f (lo + 1) k
  end.

(** The lengths [sprintf] gives an [int]: four characters exactly when the
    number fits the field, more otherwise, and never more than the buffer
    holds. *)
Definition width_check (n : Z) : bool :=
  Bool.eqb (Nat.eqb (String.length (sprintf_4d n)) 4) ((-999 <=? n) && (n <=? 9999)) &&
  Nat.leb 4 (String.length (sprintf_4d n)) &&
  Nat.leb (String.length (sprintf_4d n)) 6 &&
  Bool.eqb (Nat.eqb (String.length (sprintf_T_2d n)) 4) ((-9 <=? n) && (n <=? 99)) &&
  Nat.leb 4 (String.length (sprintf_T_2d n)) &&
  Nat.leb (String.length (sprintf_T_2d n)) 8.

(** The hundredths shown for [k] tenths of a degree: [10 * k], or one
    closer to zero. *)
Definition tenth_check (k : Z) : bool :=
  match F32.trunc (F32.mul (F32.literal k 10) (F32.of_Z 100)) with
  | Some n =>
      CInt.in_int n &&
      (if 0 <=? k then (10 * k - 1 <=? n) && (n <=? 10 * k)
       else (10 * k <=? n) && (n <=? 10 * k + 1))
  | None => false
  end.

(** The pin levels that make up a stored pair. *)
Definition pair_msb (p : Z) : bool := Z.testbit p 1.
Definition pair_lsb (p : Z) : bool := Z.testbit p 0.

(** The pair that follows [p] when the shaft turns forward, and backward. *)
Definition forward_pair (p : Z) : Z :=
  if p =? 0 then 2 else if p =? 2 then 3 else if p =? 3 then 1 else 0.

Definition backward_pair (p : Z) : Z :=
  if p =? 0 then 1 else if p =? 1 then 3 else if p =? 3 then 2 else 0.

(** The four edges of one full cycle from the pair [p]. *)
Definition full_cycle (next : Z -> Z) (p : Z) : list (bool * bool) :=
  let a := next p in
  let b := next a in
  let c := next b in
  let d := next c in
  map (fun q => (pair_msb q, pair_lsb q)) [a; b; c; d].

(** The board ten minutes into a second turn of the 32-bit millisecond
    counter, last refreshed 150 ms ago, just before the counter wrapped. *)
Definition wrapped : state :=
  elapse (2 ^ 32 + 100 - 3000) (set_time_now (2 ^ 32 - 50) booted).

(** A reading of 30.0 degrees, switch released, encoder at rest. *)
Definition hot : env :=
  mkEnv (fun _ => true) (fun _ => F32.literal 300 10) (fun _ _ => []).

(** * Properties *)

(** ** Machine integers *)

Lemma long_in_range (z : Z) :
  CInt.LONG_MIN <= z <= CInt.LONG_MAX -> CInt.long z = z.
Proof.
  unfold CInt.long, CInt.wrap_signed, CInt.LONG_MIN, CInt.LONG_MAX.
  intros Hz.
  change (2 ^ (32 - 1)) with 2147483648.
  change (2 ^ 32) with 4294967296.
  rewrite Z.mod_small by lia.
  lia.
Qed.

Lemma long_bounds (z : Z) : CInt.LONG_MIN <= CInt.long z <= CInt.LONG_MAX.
Proof.
  unfold CInt.long, CInt.wrap_signed, CInt.LONG_MIN, CInt.LONG_MAX.
  change (2 ^ (32 - 1)) with 2147483648.
  change (2 ^ 32) with 4294967296.
  pose proof (Z.mod_pos_bound (z + 2147483648) 4294967296 eq_refl).
  lia.
Qed.

(** ** binary32 facts *)

Lemma SFcompare_antisym (x y : float) :
  SFcompare y x = option_map CompOpp (SFcompare x y).
Proof.
  destruct x as [sx | sx | | sx mx ex], y as [sy | sy | | sy my ey];
    try destruct sx; try destruct sy; try reflexivity;
    cbn [SFcompare option_map]; f_equal;
    rewrite (Z.compare_antisym ex ey);
    destruct (ex ?= ey); cbn [CompOpp]; try reflexivity;
    rewrite (Pos.compare_cont_antisym mx my Eq); cbn [CompOpp];
    destruct (Pos.compare_cont Eq mx my); reflexivity.
Qed.

Lemma ltb_leb (t c : float) : F32.ltb t c = true -> F32.leb t c = true.
Proof.
  unfold F32.ltb, F32.leb, SFltb, SFleb.
  destruct (SFcompare t c) as [[ | | ] | ]; congruence.
Qed.

Lemma ltb_not_leb (t c : float) : F32.ltb c t = true -> F32.leb t c = false.
Proof.
  unfold F32.ltb, F32.leb, SFltb, SFleb.
  rewrite (SFcompare_antisym t c).
  destruct (SFcompare t c) as [[ | | ] | ]; cbn; congruence.
Qed.

Lemma leb_negb_ltb (t c : float) :
  F32.isnan t = false -> F32.isnan c = false ->
  F32.leb t c = negb (F32.ltb c t).
Proof.
  unfold F32.ltb, F32.leb, SFltb, SFleb.
  rewrite (SFcompare_antisym t c).
  destruct t, c; cbn [F32.isnan]; try discriminate; intros _ _;
  match goal with |- context [SFcompare ?a ?b] =>
    destruct (SFcompare a b) as [[ | | ] | ] eqn:Hc end; cbn; try reflexivity;
  cbn in Hc; try destruct s; try destruct s0; discriminate.
Qed.

Lemma digits_shift (p k : positive) :
  digits2_pos (Pos.iter xO p k) = (digits2_pos p + k)%positive.
Proof.
  induction k as [ | k IH] using Pos.peano_ind.
  - cbn. lia.
  - rewrite Pos.iter_succ. cbn [digits2_pos]. rewrite IH. lia.
Qed.

Lemma Zpos_shift (p k : positive) :
  Zpos (Pos.iter xO p k) = Zpos p * 2 ^ Zpos k.
Proof.
  induction k as [ | k IH] using Pos.peano_ind.
  - cbn. lia.
  - rewrite Pos.iter_succ, Pos2Z.inj_xO, IH, Pos2Z.inj_succ, Z.pow_succ_r by lia.
    ring.
Qed.

Lemma shr_fexp_canonical (m : positive) (e : Z) :
  Zpos (digits2_pos m) = 24 -> -149 <= e ->
  shr_fexp F32.prec F32.emax (Zpos m) e loc_Exact
  = ({| shr_m := Zpos m; shr_r := false; shr_s := false |}, e).
Proof.
  intros Hd He. unfold shr_fexp. cbn [Zdigits2 shr_record_of_loc]. rewrite Hd.
  replace (fexp F32.prec F32.emax (24 + e) - e) with 0
    by (unfold fexp, emin, F32.prec, F32.emax; lia).
  reflexivity.
Qed.

Lemma round_canonical (s : bool) (m : positive) (e : Z) :
  Zpos (digits2_pos m) = 24 -> -149 <= e <= 104 ->
  binary_round_aux F32.prec F32.emax s (Zpos m) e loc_Exact = S754_finite s m e.
Proof.
  intros Hd He. unfold binary_round_aux.
  rewrite shr_fexp_canonical by lia.
  cbn [shr_m loc_of_shr_record round_nearest_even].
  rewrite shr_fexp_canonical by lia. cbn [shr_m].
  replace (e <=? F32.emax - F32.prec) with true
    by (symmetry; apply Z.leb_le; unfold F32.prec, F32.emax; lia).
  reflexivity.
Qed.

Lemma digits_lower (p : positive) :
  2 ^ (Zpos (digits2_pos p) - 1) <= Zpos p.
Proof.
  induction p as [p IH | p IH | ]; cbn [digits2_pos].
  - rewrite Pos2Z.inj_succ.
    replace (Z.succ (Zpos (digits2_pos p)) - 1)
      with (Z.succ (Zpos (digits2_pos p) - 1)) by lia.
    rewrite Z.pow_succ_r by lia. lia.
  - rewrite Pos2Z.inj_succ.
    replace (Z.succ (Zpos (digits2_pos p)) - 1)
      with (Z.succ (Zpos (digits2_pos p) - 1)) by lia.
    rewrite Z.pow_succ_r by lia. lia.
  - cbn. lia.
Qed.

Lemma digits_small (p : positive) :
  Zpos p < 2 ^ 24 -> Zpos (digits2_pos p) <= 24.
Proof.
  intros Hp.
  destruct (Z_le_gt_dec (Zpos (digits2_pos p)) 24) as [H | H]; [exact H | exfalso].
  pose proof (digits_lower p) as Hl.
  assert (2 ^ 24 <= 2 ^ (Zpos (digits2_pos p) - 1)) by (apply Z.pow_le_mono_r; lia).
  lia.
Qed.

Lemma norm24_digits (p : positive) :
  Zpos p < 2 ^ 24 -> Zpos (digits2_pos (norm24 p)) = 24.
Proof.
  intros Hp. pose proof (digits_small p Hp) as Hd. unfold norm24.
  destruct (Zpos (digits2_pos p) - 24) as [ | k | k] eqn:Hk; try lia.
  rewrite digits_shift. lia.
Qed.

Lemma norm24_value (p : positive) :
  Zpos p < 2 ^ 24 ->
  Zpos (norm24 p) = Zpos p * 2 ^ (24 - Zpos (digits2_pos p)).
Proof.
  intros Hp. pose proof (digits_small p Hp) as Hd. unfold norm24.
  destruct (Zpos (digits2_pos p) - 24) as [ | k | k] eqn:Hk; try lia.
  - replace (24 - Zpos (digits2_pos p)) with 0 by lia. lia.
  - rewrite Zpos_shift. f_equal. f_equal. lia.
Qed.

Lemma binary_round_small (s : bool) (p : positive) :
  Zpos p < 2 ^ 24 ->
  binary_round F32.prec F32.emax s p 0
  = S754_finite s (norm24 p) (Zpos (digits2_pos p) - 24).
Proof.
  intros Hp. pose proof (digits_small p Hp) as Hd.
  pose proof (norm24_digits p Hp) as Hn.
  unfold binary_round.
  replace (fexp F32.prec F32.emax (Zpos (digits2_pos p) + 0))
    with (Zpos (digits2_pos p) - 24)
    by (unfold fexp, emin, F32.prec, F32.emax; lia).
  unfold shl_align, norm24 in *. rewrite Z.sub_0_r.
  destruct (Zpos (digits2_pos p) - 24) as [ | k | k] eqn:Hk; try lia.
  - apply round_canonical; [exact Hn | lia].
  - apply round_canonical; [exact Hn | lia].
Qed.

Lemma of_Z_small (c : Z) :
  - 2 ^ 24 < c < 2 ^ 24 ->
  F32.of_Z c =
  match c with
  | Z0 => S754_zero false
  | Zpos p => S754_finite false (norm24 p) (Zpos (digits2_pos p) - 24)
  | Zneg p => S754_finite true (norm24 p) (Zpos (digits2_pos p) - 24)
  end.
Proof.
  intros Hc. unfold F32.of_Z, binary_normalize.
  destruct c as [ | p | p]; [reflexivity | | ]; apply binary_round_small; lia.
Qed.

Lemma quarter (s : bool) (m : positive) (e : Z) :
  Zpos (digits2_pos m) = 24 -> -147 <= e <= 0 ->
  F32.mul (S754_finite s m e) enco_sensitivity = S754_finite s m (e - 2).
Proof.
  intros Hd He.
  change enco_sensitivity with (S754_finite false 8388608 (-25)).
  unfold F32.mul, SFmul. rewrite xorb_false_r, Pos.mul_comm.
  cbn [Pos.mul].
  unfold binary_round_aux.
  assert (Hs : shr_fexp F32.prec F32.emax
                 (Zpos m~0~0~0~0~0~0~0~0~0~0~0~0~0~0~0~0~0~0~0~0~0~0~0) (e + -25) loc_Exact
               = ({| shr_m := Zpos m; shr_r := false; shr_s := false |}, e - 2)).
  { unfold shr_fexp. cbn [Zdigits2 shr_record_of_loc digits2_pos].
    rewrite !Pos2Z.inj_succ, Hd.
    replace (fexp F32.prec F32.emax _ - (e + -25)) with 23
      by (unfold fexp, emin, F32.prec, F32.emax; lia).
    unfold shr. cbn [iter_pos shr_1 orb]. f_equal. lia. }
  rewrite Hs. cbn [shr_m loc_of_shr_record round_nearest_even].
  rewrite shr_fexp_canonical by lia. cbn [shr_m].
  replace (e - 2 <=? F32.emax - F32.prec) with true
    by (symmetry; apply Z.leb_le; unfold F32.prec, F32.emax; lia).
  reflexivity.
Qed.

Lemma value_quarter (s : bool) (p : positive) :
  Zpos p < 2 ^ 24 ->
  exists q,
    F32.value (S754_finite s (norm24 p) (Zpos (digits2_pos p) - 24 - 2)) = Some q /\
    (q == cond_Zopp s (Zpos p) # 4)%Q.
Proof.
  intros Hp. pose proof (digits_small p Hp) as Hd.
  pose proof (norm24_value p Hp) as Hn.
  unfold F32.value.
  replace (0 <=? Zpos (digits2_pos p) - 24 - 2) with false
    by (symmetry; apply Z.leb_gt; lia).
  eexists. split; [reflexivity | ].
  unfold Qeq. cbn [Qnum Qden].
  assert (Hpow : 0 < 2 ^ (- (Zpos (digits2_pos p) - 24 - 2)))
    by (apply Z.pow_pos_nonneg; lia).
  rewrite Z2Pos.id by exact Hpow.
  replace (- (Zpos (digits2_pos p) - 24 - 2)) with (24 - Zpos (digits2_pos p) + 2) by lia.
  rewrite Z.pow_add_r by lia.
  destruct s; cbn [cond_Zopp]; rewrite Hn; change (2 ^ 2) with 4; ring.
Qed.

(** For a counter below 2^24 in magnitude the target is the exact quarter. *)
Lemma target_exact (c : Z) :
  - 2 ^ 24 < c < 2 ^ 24 ->
  exists q,
    F32.value (F32.mul (F32.of_Z c) enco_sensitivity) = Some q /\ (q == c # 4)%Q.
Proof.
  intros Hc. rewrite (of_Z_small c Hc).
  destruct c as [ | p | p].
  - exists (0 # 1)%Q. split; reflexivity.
  - assert (Hp : Zpos p < 2 ^ 24) by lia.
    pose proof (digits_small p Hp). pose proof (norm24_digits p Hp).
    rewrite quarter by lia. apply (value_quarter false p Hp).
  - assert (Hp : Zpos p < 2 ^ 24) by lia.
    pose proof (digits_small p Hp). pose proof (norm24_digits p Hp).
    rewrite quarter by lia. apply (value_quarter true p Hp).
Qed.

(** ** The encoder interrupt *)

Lemma updateEncoder_run (msb lsb : bool) (s : state) :
  setup_mode s = false -> updateEncoder msb lsb s = s.
Proof. intros H. unfold updateEncoder. rewrite H. reflexivity. Qed.

Lemma pack_pins (msb lsb : bool) :
  Z.lor (CInt.int (Z.shiftl (Z.b2z msb) 1)) (Z.b2z lsb) = pin_pair msb lsb.
Proof. destruct msb, lsb; reflexivity. Qed.

Lemma pack_code (prev : Z) (msb lsb : bool) :
  0 <= prev < 4 ->
  Z.lor (CInt.int (Z.shiftl prev 2)) (pin_pair msb lsb)
  = transition_code prev (pin_pair msb lsb).
Proof.
  intros Hp.
  assert (Hc : prev = 0 \/ prev = 1 \/ prev = 2 \/ prev = 3) by lia.
  destruct Hc as [-> | [-> | [-> | ->]]]; destruct msb, lsb; reflexivity.
Qed.

Lemma updateEncoder_setup (msb lsb : bool) (s : state) :
  setup_mode s = true ->
  0 <= enco_prev s < 4 ->
  updateEncoder msb lsb s =
  let v := next_counter (transition_code (enco_prev s) (pin_pair msb lsb))
                        (enco_value s) in
  set_encoder (pin_pair msb lsb) v (F32.mul (F32.of_Z v) enco_sensitivity) s.
Proof.
  intros Hm Hp. unfold updateEncoder. rewrite Hm. cbn [negb].
  rewrite pack_pins, (pack_code _ _ _ Hp). reflexivity.
Qed.

Lemma pin_pair_range (msb lsb : bool) : 0 <= pin_pair msb lsb < 4.
Proof. destruct msb, lsb; unfold pin_pair; cbn; lia. Qed.

Lemma transition_code_range (prev : Z) (msb lsb : bool) :
  0 <= prev < 4 -> 0 <= transition_code prev (pin_pair msb lsb) < 16.
Proof.
  intros Hp. pose proof (pin_pair_range msb lsb). unfold transition_code. lia.
Qed.

(** The two tables do not overlap, so at most one of the two tests of the
    handler fires. *)
Lemma next_counter_cases (code v : Z) :
  CInt.LONG_MIN < v < CInt.LONG_MAX ->
  0 <= code < 16 ->
  (In code [bin "1101"; bin "0100"; bin "0010"; bin "1011"] ->
   next_counter code v = v + 1) /\
  (In code [bin "1110"; bin "0111"; bin "0001"; bin "1000"] ->
   next_counter code v = v - 1) /\
  (~ In code [bin "1101"; bin "0100"; bin "0010"; bin "1011"] ->
   ~ In code [bin "1110"; bin "0111"; bin "0001"; bin "1000"] ->
   next_counter code v = v).
Proof.
  intros Hv Hc.
  assert (Hup : CInt.long (v + 1) = v + 1) by (apply long_in_range; lia).
  assert (Hdn : CInt.long (v - 1) = v - 1) by (apply long_in_range; lia).
  assert (Hcases : code = 0 \/ code = 1 \/ code = 2 \/ code = 3 \/
                   code = 4 \/ code = 5 \/ code = 6 \/ code = 7 \/
                   code = 8 \/ code = 9 \/ code = 10 \/ code = 11 \/
                   code = 12 \/ code = 13 \/ code = 14 \/ code = 15) by lia.
  change (bin "1101") with 13; change (bin "0100") with 4;
    change (bin "0010") with 2; change (bin "1011") with 11;
    change (bin "1110") with 14; change (bin "0111") with 7;
    change (bin "0001") with 1; change (bin "1000") with 8.
  repeat (destruct Hcases as [-> | Hcases]); try subst code;
    unfold next_counter; cbn [code_in existsb forward_codes backward_codes];
    cbn; rewrite ?Hup, ?Hdn; cbn [In];
    (split; [ | split ]); intros; try reflexivity; try lia; exfalso; tauto.
Qed.

Lemma next_counter_bounds (code v : Z) :
  CInt.LONG_MIN <= v <= CInt.LONG_MAX ->
  CInt.LONG_MIN <= next_counter code v <= CInt.LONG_MAX.
Proof.
  intros Hv. unfold next_counter.
  destruct (code_in code backward_codes); [apply long_bounds | ].
  destruct (code_in code forward_codes); [apply long_bounds | exact Hv].
Qed.

Lemma encoder_only_refl (s : state) : encoder_only s s.
Proof. destruct s; reflexivity. Qed.

Lemma encoder_only_trans (s1 s2 s3 : state) :
  encoder_only s1 s2 -> encoder_only s2 s3 -> encoder_only s1 s3.
Proof.
  unfold encoder_only. intros H12 H23. rewrite H23 at 1. rewrite H12 at 1.
  reflexivity.
Qed.

Lemma updateEncoder_only (msb lsb : bool) (s : state) :
  encoder_only s (updateEncoder msb lsb s).
Proof.
  unfold updateEncoder. destruct (setup_mode s); cbn [negb].
  - reflexivity.
  - apply encoder_only_refl.
Qed.

Lemma updateEncoder_inv (msb lsb : bool) (s : state) :
  encoder_inv s -> encoder_inv (updateEncoder msb lsb s).
Proof.
  intros (Hp & Hv & Ht).
  destruct (setup_mode s) eqn:Hm.
  - rewrite (updateEncoder_setup msb lsb s Hm Hp). cbv zeta.
    repeat split; cbn [enco_prev enco_value target_temp set_encoder];
      try apply pin_pair_range; apply next_counter_bounds; exact Hv.
  - rewrite (updateEncoder_run msb lsb s Hm). repeat split; tauto.
Qed.

(** ** Frames of the parts of [loop] *)

Section Frames.

Variable cast_overflow : float -> Z.
Variable E : env.

Lemma interrupts_only (edges : list (bool * bool)) (s : state) :
  encoder_only s (interrupts edges s).
Proof.
  revert s. induction edges as [ | [msb lsb] rest IH]; intros s; cbn [interrupts fold_left].
  - apply encoder_only_refl.
  - eapply encoder_only_trans; [apply (updateEncoder_only msb lsb) | apply IH].
Qed.

Lemma interrupts_run (edges : list (bool * bool)) (s : state) :
  setup_mode s = false -> interrupts edges s = s.
Proof.
  intros Hm. induction edges as [ | [msb lsb] rest IH]; cbn [interrupts fold_left fst snd].
  - reflexivity.
  - rewrite (updateEncoder_run msb lsb s Hm). exact IH.
Qed.

Lemma interrupts_inv (edges : list (bool * bool)) (s : state) :
  encoder_inv s -> encoder_inv (interrupts edges s).
Proof.
  revert s. induction edges as [ | [msb lsb] rest IH]; intros s Hs;
    cbn [interrupts fold_left fst snd].
  - exact Hs.
  - apply IH, updateEncoder_inv, Hs.
Qed.

(** A delay leaves everything but the encoder globals, the clock and the
    trace alone. *)
Lemma delay_fields (ms : Z) (s : state) :
  buff (delay E ms s) = buff s /\
  setup_mode (delay E ms s) = setup_mode s /\
  time_now (delay E ms s) = time_now s /\
  current_temp (delay E ms s) = current_temp s /\
  relay_pin (delay E ms s) = relay_pin s /\
  clock (delay E ms s) = clock s + ms /\
  trace (delay E ms s) = trace s ++ [Wait ms].
Proof.
  unfold delay. pose proof (interrupts_only (enco_edges E (clock s) ms) s) as H.
  unfold encoder_only in H. rewrite H. repeat split; reflexivity.
Qed.

Lemma delay_run (ms : Z) (s : state) :
  setup_mode s = false -> delay E ms s = emit [Wait ms] (elapse ms s).
Proof. intros Hm. unfold delay. rewrite (interrupts_run _ s Hm). reflexivity. Qed.

Lemma delay_inv (ms : Z) (s : state) :
  encoder_inv s -> encoder_inv (delay E ms s).
Proof.
  intros Hs. apply (interrupts_inv (enco_edges E (clock s) ms)) in Hs.
  exact Hs.
Qed.

(** The display presenter writes the buffer and the display line only. *)
Lemma updateDisplay_fields (s : state) :
  let s' := updateDisplay cast_overflow s in
  encoder_same s s' /\
  setup_mode s' = setup_mode s /\
  time_now s' = time_now s /\
  current_temp s' = current_temp s /\
  relay_pin s' = relay_pin s /\
  clock s' = clock s /\
  trace s' = trace s ++
             display_frame (if setup_mode s then bin "010000" else bin "000010")
                           (buff s').
Proof.
  unfold updateDisplay, encoder_same, display_frame.
  destruct (setup_mode s) eqn:Hm; cbv zeta;
    cbn [writeTargetTemperature writeCurrentTemperature setDecimals disp_write
         disp_print emit set_buff buff enco_prev enco_value target_temp
         setup_mode time_now current_temp relay_pin clock trace];
    rewrite <- !app_assoc, ?Hm; repeat split; reflexivity.
Qed.

Lemma refresh_fields (s : state) :
  let s' := refresh cast_overflow s in
  encoder_same s s' /\
  setup_mode s' = setup_mode s /\
  current_temp s' = current_temp s /\
  relay_pin s' = relay_pin s /\
  clock s' = clock s /\
  trace s' = trace s ++
             (if CInt.ulong (millis s - time_now s) >? refresh_freq
              then display_frame (if setup_mode s then bin "010000" else bin "000010")
                                 (buff s')
              else []).
Proof.
  unfold refresh. cbv zeta.
  destruct (CInt.ulong (millis s - time_now s) >? refresh_freq).
  - pose proof (updateDisplay_fields (set_time_now (millis s) s)) as H.
    cbv zeta in H. unfold encoder_same in *. cbn [set_time_now] in H.
    cbn [enco_prev enco_value target_temp setup_mode time_now current_temp
         relay_pin clock trace] in H.
    tauto.
  - unfold encoder_same. rewrite app_nil_r. repeat split; reflexivity.
Qed.

(** *** The switch *)

Lemma button_released (s : state) :
  sw_pin E (clock s) = true -> button cast_overflow E s = s.
Proof. intros H. unfold button. rewrite H. reflexivity. Qed.

Lemma button_pressed (s : state) :
  sw_pin E (clock s) = false ->
  button cast_overflow E s
  = delay E 1000 (updateDisplay cast_overflow (set_setup_mode (negb (setup_mode s)) s)).
Proof. intros H. unfold button. rewrite H. reflexivity. Qed.

Lemma button_fields (s : state) :
  let s' := button cast_overflow E s in
  setup_mode s' = (if sw_pin E (clock s) then setup_mode s else negb (setup_mode s)) /\
  time_now s' = time_now s /\
  current_temp s' = current_temp s /\
  relay_pin s' = relay_pin s /\
  clock s' = (if sw_pin E (clock s) then clock s else clock s + 1000) /\
  trace s' = trace s ++
             (if sw_pin E (clock s) then []
              else display_frame (if negb (setup_mode s) then bin "010000" else bin "000010")
                                 (buff s') ++ [Wait 1000]).
Proof.
  cbv zeta. destruct (sw_pin E (clock s)) eqn:Hsw.
  - rewrite (button_released s Hsw), app_nil_r. repeat split; reflexivity.
  - rewrite (button_pressed s Hsw).
    set (s0 := set_setup_mode (negb (setup_mode s)) s).
    pose proof (delay_fields 1000 (updateDisplay cast_overflow s0))
      as (Hb & Hm & Ht & Hc & Hr & Hk & Htr).
    pose proof (updateDisplay_fields s0) as (_ & Hm' & Ht' & Hc' & Hr' & Hk' & Htr').
    rewrite Hm, Ht, Hc, Hr, Hk, Htr, Hb, Hm', Ht', Hc', Hr', Hk', Htr'.
    rewrite <- app_assoc. repeat split; reflexivity.
Qed.

(** With Run mode after the switch, the encoder globals came through it
    untouched: the interrupts of the guard delay, if any, found Run mode. *)
Lemma button_run_encoder (s : state) :
  setup_mode (button cast_overflow E s) = false ->
  encoder_same s (button cast_overflow E s).
Proof.
  intros Hrun. destruct (sw_pin E (clock s)) eqn:Hsw.
  - rewrite (button_released s Hsw). unfold encoder_same. tauto.
  - pose proof (button_fields s) as (Hm & _). cbv zeta in Hm.
    rewrite Hsw, Hrun in Hm. rewrite (button_pressed s Hsw).
    set (s0 := set_setup_mode (negb (setup_mode s)) s).
    pose proof (updateDisplay_fields s0) as (He & Hm' & _).
    rewrite delay_run by (rewrite Hm'; symmetry; exact Hm).
    exact He.
Qed.

Lemma encoder_same_inv (s s' : state) :
  encoder_same s s' -> encoder_inv s -> encoder_inv s'.
Proof.
  unfold encoder_same, encoder_inv. intros (-> & -> & ->). tauto.
Qed.

Lemma button_inv (s : state) :
  encoder_inv s -> encoder_inv (button cast_overflow E s).
Proof.
  intros Hs. destruct (sw_pin E (clock s)) eqn:Hsw.
  - rewrite (button_released s Hsw). exact Hs.
  - rewrite (button_pressed s Hsw). apply delay_inv.
    eapply encoder_same_inv; [ | exact Hs].
    apply (updateDisplay_fields (set_setup_mode (negb (setup_mode s)) s)).
Qed.

End Frames.

(** ** The three ways through [loop] *)

Section Loop.

Variable cast_overflow : float -> Z.
Variable E : env.

Lemma loop_setup (s : state) :
  setup_mode (button cast_overflow E s) = true ->
  loop cast_overflow E s = refresh cast_overflow (button cast_overflow E s).
Proof. intros Hm. unfold loop. cbv zeta. rewrite Hm. reflexivity. Qed.

Lemma loop_nan (s : state) :
  setup_mode (button cast_overflow E s) = false ->
  F32.isnan (dht_temperature E (clock (button cast_overflow E s))) = true ->
  loop cast_overflow E s
  = disp_print "Err "
      (set_current_temp (dht_temperature E (clock (button cast_overflow E s)))
                        (button cast_overflow E s)).
Proof.
  intros Hm Hn. unfold loop. cbv zeta. rewrite Hm. cbn [negb current_temp set_current_temp].
  rewrite Hn. reflexivity.
Qed.

Lemma loop_valid (s : state) :
  setup_mode (button cast_overflow E s) = false ->
  F32.isnan (dht_temperature E (clock (button cast_overflow E s))) = false ->
  loop cast_overflow E s
  = let s1 := set_current_temp (dht_temperature E (clock (button cast_overflow E s)))
                               (button cast_overflow E s) in
    refresh cast_overflow
      (switchRelay (F32.leb (current_temp s1) (cushioned_target s1)) s1).
Proof.
  intros Hm Hn. unfold loop. cbv zeta. rewrite Hm. cbn [negb current_temp set_current_temp].
  rewrite Hn. reflexivity.
Qed.

Lemma switchRelay_fields (on : bool) (s : state) :
  let s' := switchRelay on s in
  encoder_same s s' /\
  setup_mode s' = setup_mode s /\
  time_now s' = time_now s /\
  current_temp s' = current_temp s /\
  relay_pin s' = on /\
  clock s' = clock s /\
  trace s' = trace s ++ [Relay on].
Proof. unfold encoder_same. destruct on; repeat split; reflexivity. Qed.

(** What [loop] does after the switch touches neither the mode, nor the
    clock, nor the encoder globals. *)
Lemma loop_fields (s : state) :
  setup_mode (loop cast_overflow E s) = setup_mode (button cast_overflow E s) /\
  clock (loop cast_overflow E s) = clock (button cast_overflow E s) /\
  encoder_same (button cast_overflow E s) (loop cast_overflow E s).
Proof.
  set (s1 := button cast_overflow E s).
  destruct (setup_mode s1) eqn:Hm.
  - rewrite (loop_setup s Hm). fold s1.
    pose proof (refresh_fields cast_overflow s1) as (He & Hm' & _ & _ & Hk & _).
    rewrite Hm', Hk. auto.
  - destruct (F32.isnan (dht_temperature E (clock s1))) eqn:Hn.
    + rewrite (loop_nan s Hm Hn). fold s1. unfold encoder_same.
      repeat split; try reflexivity. exact Hm.
    + rewrite (loop_valid s Hm Hn). fold s1. cbv zeta.
      set (s2 := set_current_temp _ s1).
      set (s3 := switchRelay _ s2).
      pose proof (refresh_fields cast_overflow s3) as (He & Hm' & _ & _ & Hk & _).
      pose proof (switchRelay_fields (F32.leb (current_temp s2) (cushioned_target s2)) s2)
        as (He2 & Hm2 & _ & _ & _ & Hk2 & _).
      fold s3 in He2, Hm2, Hk2. cbv zeta in He, Hm', Hk.
      unfold encoder_same in *.
      rewrite Hm', Hk, Hm2, Hk2.
      destruct He as (-> & -> & ->). destruct He2 as (-> & -> & ->).
      repeat split; try reflexivity. exact Hm.
Qed.

Lemma loop_inv (s : state) :
  encoder_inv s -> encoder_inv (loop cast_overflow E s).
Proof.
  intros Hs. eapply encoder_same_inv.
  - apply loop_fields.
  - apply button_inv, Hs.
Qed.

Lemma clock_mono (s : state) : clock s <= clock (loop cast_overflow E s).
Proof.
  pose proof (loop_fields s) as (_ & -> & _).
  pose proof (button_fields cast_overflow E s) as (_ & _ & _ & _ & -> & _).
  destruct (sw_pin E (clock s)); lia.
Qed.

Lemma setup_inv : encoder_inv (setup cast_overflow E power_on).
Proof.
  unfold setup. cbv zeta. apply delay_inv.
  unfold encoder_inv, CInt.LONG_MIN, CInt.LONG_MAX.
  cbn [enco_prev enco_value target_temp writeTargetTemperature disp_print set_buff
       setDecimals disp_write emit set_target_temp set_encoder switchRelay
       set_relay_pin setBrightness clearDisplay power_on].
  repeat split; try lia; reflexivity.
Qed.

(** The invariant of the encoder globals holds all along a run. *)
Lemma reachable_inv (s : state) :
  reachable cast_overflow E s -> encoder_inv s.
Proof.
  induction 1 as [ | s _ IH | msb lsb s _ IH].
  - apply setup_inv.
  - apply loop_inv, IH.
  - apply updateEncoder_inv, IH.
Qed.

End Loop.

(** * The claims *)

(** ** Quadrature decoder *)

(** C5: an invocation of the decoder in Run mode leaves the whole state as
    it was, whatever the levels of the two encoder pins: the counter, the
    stored previous pin pair and the target temperature are unchanged; the
    same holds of any burst of invocations. *)
Theorem run_mode_ignores_encoder (msb lsb : bool) (s : state) :
  setup_mode s = false ->
  updateEncoder msb lsb s = s /\
  enco_value (updateEncoder msb lsb s) = enco_value s /\
  enco_prev (updateEncoder msb lsb s) = enco_prev s /\
  target_temp (updateEncoder msb lsb s) = target_temp s /\
  (forall edges, interrupts edges s = s).
Proof.
  intros Hm. rewrite (updateEncoder_run msb lsb s Hm).
  repeat split; try reflexivity.
  intros edges. apply interrupts_run, Hm.
Qed.

Lemma run_mode_ignores_encoder_witness :
  setup_mode booted = false /\
  updateEncoder true false booted = booted /\
  interrupts [(true, false); (true, true); (false, true)] booted = booted.
Proof.
  split; [reflexivity | ].
  destruct (run_mode_ignores_encoder true false booted eq_refl) as (H1 & _ & _ & _ & H2).
  split; [exact H1 | apply H2].
Defined.

(** C2: in Setup mode, with the transition code made of the stored previous
    pin pair (high bits) and the current pin pair (low bits), the counter
    goes up by exactly 1 on 1101, 0100, 0010 and 1011, down by exactly 1 on
    1110, 0111, 0001 and 1000, and stays on every other code; the current
    pair is stored as the previous one.  The counter is a [long] strictly
    inside its range, so that the step does not overflow. *)
Theorem quadrature_decoding (msb lsb : bool) (s : state) :
  setup_mode s = true ->
  0 <= enco_prev s < 4 ->
  CInt.LONG_MIN < enco_value s < CInt.LONG_MAX ->
  let code := transition_code (enco_prev s) (pin_pair msb lsb) in
  let s' := updateEncoder msb lsb s in
  (In code [bin "1101"; bin "0100"; bin "0010"; bin "1011"] ->
   enco_value s' = enco_value s + 1) /\
  (In code [bin "1110"; bin "0111"; bin "0001"; bin "1000"] ->
   enco_value s' = enco_value s - 1) /\
  (~ In code [bin "1101"; bin "0100"; bin "0010"; bin "1011"] ->
   ~ In code [bin "1110"; bin "0111"; bin "0001"; bin "1000"] ->
   enco_value s' = enco_value s) /\
  enco_prev s' = pin_pair msb lsb.
Proof.
  intros Hm Hp Hv. cbv zeta.
  rewrite (updateEncoder_setup msb lsb s Hm Hp). cbv zeta.
  cbn [enco_value enco_prev set_encoder].
  pose proof (next_counter_cases _ (enco_value s) Hv (transition_code_range _ msb lsb Hp))
    as (Hf & Hb & Hn).
  repeat split; assumption.
Qed.

Lemma quadrature_decoding_witness :
  enco_value adjusting = 100 /\
  enco_value (updateEncoder false true adjusting) = 99 /\
  enco_value (updateEncoder true false adjusting) = 101 /\
  enco_value (updateEncoder false false adjusting) = 100 /\
  enco_prev (updateEncoder true false adjusting) = 2.
Proof.
  assert (Hm : setup_mode adjusting = true) by reflexivity.
  assert (Hp : 0 <= enco_prev adjusting < 4)
    by (split; [apply Z.leb_le | apply Z.ltb_lt]; reflexivity).
  assert (Hv : CInt.LONG_MIN < enco_value adjusting < CInt.LONG_MAX)
    by (split; apply Z.ltb_lt; reflexivity).
  split; [reflexivity | ].
  split; [ | split; [ | split ]].
  - apply (quadrature_decoding false true adjusting Hm Hp Hv). vm_compute. tauto.
  - apply (quadrature_decoding true false adjusting Hm Hp Hv). vm_compute. tauto.
  - apply (quadrature_decoding false false adjusting Hm Hp Hv);
      vm_compute; intros H; repeat (destruct H as [H | H]; try discriminate H); exact H.
  - apply (quadrature_decoding true false adjusting Hm Hp Hv).
Defined.

(** ** Setpoint *)

(** C3: right after any invocation of the decoder in Setup mode the target
    is the counter times 0.25, computed in binary32, and for a counter
    below 2^24 in magnitude it is the exact quarter; an invocation in Run
    mode changes neither the counter nor the target, nor does an iteration
    of [loop] that leaves the switch handling in Run mode; and the relation
    between target and counter holds in every state of a run. *)
Theorem target_tracks_counter
    (cast_overflow : float -> Z) (E : env) (msb lsb : bool) (s : state) :
  let s' := updateEncoder msb lsb s in
  (setup_mode s = true ->
   target_temp s' = F32.mul (F32.of_Z (enco_value s')) enco_sensitivity /\
   (- 2 ^ 24 < enco_value s' < 2 ^ 24 ->
    exists q, F32.value (target_temp s') = Some q /\ (q == enco_value s' # 4)%Q)) /\
  (setup_mode s = false ->
   enco_value s' = enco_value s /\ target_temp s' = target_temp s) /\
  (setup_mode (button cast_overflow E s) = false ->
   enco_value (loop cast_overflow E s) = enco_value s /\
   target_temp (loop cast_overflow E s) = target_temp s) /\
  (reachable cast_overflow E s ->
   target_temp s = F32.mul (F32.of_Z (enco_value s)) enco_sensitivity).
Proof.
  cbv zeta. split; [ | split; [ | split ]].
  - intros Hm.
    assert (Ht : target_temp (updateEncoder msb lsb s)
                 = F32.mul (F32.of_Z (enco_value (updateEncoder msb lsb s)))
                           enco_sensitivity)
      by (unfold updateEncoder; rewrite Hm; reflexivity).
    split; [exact Ht | ].
    intros Hc. rewrite Ht. apply target_exact, Hc.
  - intros Hm. rewrite (updateEncoder_run msb lsb s Hm). split; reflexivity.
  - intros Hm.
    pose proof (button_run_encoder cast_overflow E s Hm) as (_ & Hv & Ht).
    pose proof (loop_fields cast_overflow E s) as (_ & _ & _ & Hv' & Ht').
    rewrite Hv', Ht', Hv, Ht. split; reflexivity.
  - intros Hr. apply (reachable_inv cast_overflow E s Hr).
Qed.

Lemma target_tracks_counter_witness :
  (target_temp (updateEncoder true false adjusting)
   = F32.mul (F32.of_Z 101) enco_sensitivity /\
   exists q, F32.value (target_temp (updateEncoder true false adjusting)) = Some q /\
             (q == 101 # 4)%Q) /\
  target_temp (updateEncoder true false booted) = target_temp booted /\
  enco_value (loop no_overflow quiet booted) = 100 /\
  target_temp booted = F32.mul (F32.of_Z 100) enco_sensitivity.
Proof.
  split; [ | split; [ | split ]].
  - destruct (target_tracks_counter no_overflow held true false adjusting)
      as (H & _).
    destruct (H eq_refl) as (Ht & Hq). split; [exact Ht | ].
    apply Hq. split; apply Z.ltb_lt; reflexivity.
  - destruct (target_tracks_counter no_overflow quiet true false booted)
      as (_ & H & _).
    apply (H eq_refl).
  - destruct (target_tracks_counter no_overflow quiet true false booted)
      as (_ & _ & H & _).
    apply (H eq_refl).
  - destruct (target_tracks_counter no_overflow quiet true false booted)
      as (_ & _ & _ & H).
    apply H, reach_setup.
Defined.

(** C8: the target derived from the counter is exact at the two
    distinguished points: a decoder step that leaves the counter at 0 leaves
    the target at exactly 0.0, one that leaves it at 100 leaves the target
    at exactly 25.0, and [setup] derives exactly 25.0 from the startup
    default 100. *)
Theorem target_exact_at_0_and_100
    (cast_overflow : float -> Z) (E : env) (msb lsb : bool) (s : state) :
  let s' := updateEncoder msb lsb s in
  (setup_mode s = true -> enco_value s' = 0 ->
   target_temp s' = S754_zero false /\ F32.value (target_temp s') = Some (0 # 1)%Q) /\
  (setup_mode s = true -> enco_value s' = 100 ->
   target_temp s' = F32.literal 250 10 /\
   exists q, F32.value (target_temp s') = Some q /\ (q == 25 # 1)%Q) /\
  enco_value power_on = 100 /\
  target_temp (setup cast_overflow E power_on) = F32.literal 250 10.
Proof.
  cbv zeta.
  assert (Ht : setup_mode s = true ->
               target_temp (updateEncoder msb lsb s)
               = F32.mul (F32.of_Z (enco_value (updateEncoder msb lsb s)))
                         enco_sensitivity)
    by (intros Hm; unfold updateEncoder; rewrite Hm; reflexivity).
  split; [ | split; [ | split ]].
  - intros Hm H0. rewrite (Ht Hm), H0. split; reflexivity.
  - intros Hm H100. rewrite (Ht Hm), H100. split; [reflexivity | ].
    eexists. split; reflexivity.
  - reflexivity.
  - pose proof (setup_inv cast_overflow E) as (_ & _ & H).
    rewrite H.
    replace (enco_value (setup cast_overflow E power_on)) with 100; [reflexivity | ].
    unfold setup. cbv zeta. rewrite delay_run by reflexivity. reflexivity.
Qed.

Lemma target_exact_at_0_and_100_witness :
  target_temp (updateEncoder false false adjusting) = F32.literal 250 10 /\
  target_temp
    (updateEncoder false true (set_encoder 0 1 (F32.literal 25 100) adjusting))
  = S754_zero false.
Proof.
  split.
  - destruct (target_exact_at_0_and_100 no_overflow quiet false false adjusting)
      as (_ & H & _).
    apply (H eq_refl eq_refl).
  - destruct (target_exact_at_0_and_100 no_overflow quiet false true
                (set_encoder 0 1 (F32.literal 25 100) adjusting)) as (H & _).
    apply (H eq_refl eq_refl).
Defined.

(** ** Display presenter *)

(** C7: in Run mode with current temperature 23.456 the integer sent to the
    display is the truncation of 23.456 * 100, that is 2345, and the payload
    is "2345", four characters wide; in Setup mode with target temperature
    24.0 the payload is "T 24".  Each payload follows the decimal-point
    command on the display line. *)
Theorem display_formatting (cast_overflow : float -> Z) (s : state) :
  (setup_mode s = false ->
   current_temp s = F32.literal 23456 1000 ->
   float_to_int cast_overflow (F32.mul (current_temp s) (F32.of_Z 100)) = 2345 /\
   sprintf_4d 2345 = "2345"%string /\
   buff (updateDisplay cast_overflow s) = "2345"%string /\
   trace (updateDisplay cast_overflow s)
   = trace s ++ display_frame (bin "000010") "2345") /\
  (setup_mode s = true ->
   target_temp s = F32.literal 240 10 ->
   float_to_int cast_overflow (target_temp s) = 24 /\
   buff (updateDisplay cast_overflow s) = "T 24"%string /\
   trace (updateDisplay cast_overflow s)
   = trace s ++ display_frame (bin "010000") "T 24").
Proof.
  split; intros Hm Ht.
  - assert (Hb : buff (updateDisplay cast_overflow s) = "2345"%string)
      by (unfold updateDisplay; rewrite Hm;
          cbn [writeCurrentTemperature setDecimals disp_write disp_print emit
               set_buff buff current_temp];
          rewrite Ht; reflexivity).
    pose proof (updateDisplay_fields cast_overflow s) as (_ & _ & _ & _ & _ & _ & Htr).
    rewrite Hm, Hb in Htr. rewrite Ht.
    repeat split; try reflexivity; assumption.
  - assert (Hb : buff (updateDisplay cast_overflow s) = "T 24"%string)
      by (unfold updateDisplay; rewrite Hm;
          cbn [writeTargetTemperature setDecimals disp_write disp_print emit
               set_buff buff target_temp];
          rewrite Ht; reflexivity).
    pose proof (updateDisplay_fields cast_overflow s) as (_ & _ & _ & _ & _ & _ & Htr).
    rewrite Hm, Hb in Htr. rewrite Ht.
    repeat split; try reflexivity; assumption.
Qed.

Lemma display_formatting_witness :
  buff (updateDisplay no_overflow (set_current_temp (F32.literal 23456 1000) booted))
  = "2345"%string /\
  buff (updateDisplay no_overflow
          (set_encoder 0 96 (F32.literal 240 10) adjusting))
  = "T 24"%string.
Proof.
  split.
  - destruct (display_formatting no_overflow
                (set_current_temp (F32.literal 23456 1000) booted)) as (H & _).
    apply (H eq_refl eq_refl).
  - destruct (display_formatting no_overflow
                (set_encoder 0 96 (F32.literal 240 10) adjusting)) as (_ & H).
    apply (H eq_refl eq_refl).
Defined.

(** ** Startup *)

(** C9: after [setup] and before the first iteration of [loop] the mode is
    Run, the relay pin has been written low, the counter holds its default
    100 and the target is 25.0; [setup] forces the relay low from any state,
    and the state it leaves from power-on is the same whatever the
    environment: nothing of an earlier run enters it. *)
Theorem startup_state (cast_overflow : float -> Z) (E : env) :
  let s0 := setup cast_overflow E power_on in
  setup_mode s0 = false /\
  relay_pin s0 = false /\
  In (Relay false) (trace s0) /\
  enco_value s0 = 100 /\
  target_temp s0 = F32.literal 250 10 /\
  (forall s, relay_pin (setup cast_overflow E s) = false) /\
  s0 = {| buff := "T 25";
          enco_prev := 0;
          enco_value := 100;
          target_temp := F32.literal 250 10;
          setup_mode := false;
          time_now := 0;
          current_temp := F32.of_Z 0;
          relay_pin := false;
          clock := 3000;
          trace := [Tx 0x76; Tx 0x7A; Tx 255; Relay false] ++
                   display_frame (bin "010000") "T 25" ++ [Wait 3000] |}.
Proof.
  cbv zeta.
  assert (Hs : setup cast_overflow E power_on =
               {| buff := "T 25";
                  enco_prev := 0;
                  enco_value := 100;
                  target_temp := F32.literal 250 10;
                  setup_mode := false;
                  time_now := 0;
                  current_temp := F32.of_Z 0;
                  relay_pin := false;
                  clock := 3000;
                  trace := [Tx 0x76; Tx 0x7A; Tx 255; Relay false] ++
                           display_frame (bin "010000") "T 25" ++ [Wait 3000] |})
    by (unfold setup; cbv zeta; rewrite delay_run by reflexivity; reflexivity).
  rewrite Hs. repeat split; try reflexivity.
  - cbn. tauto.
  - intros s. unfold setup. cbv zeta.
    match goal with |- relay_pin (delay E 3000 ?x) = _ =>
      pose proof (delay_fields E 3000 x) as (_ & _ & _ & _ & Hr & _) end.
    rewrite Hr. reflexivity.
Qed.

(** ** Hysteresis controller *)

Lemma loop_relay (cast_overflow : float -> Z) (E : env) (s : state) :
  let s1 := button cast_overflow E s in
  let t := dht_temperature E (clock s1) in
  let threshold := if relay_pin s
                   then F32.add (target_temp s) half_cushion
                   else F32.sub (target_temp s) half_cushion in
  setup_mode s1 = false ->
  F32.isnan t = false ->
  relay_pin (loop cast_overflow E s) = F32.leb t threshold /\
  time_now (loop cast_overflow E s)
  = (if CInt.ulong (millis s1 - time_now s) >? refresh_freq
     then millis s1 else time_now s) /\
  trace (loop cast_overflow E s)
  = trace s1 ++ Relay (F32.leb t threshold) ::
    (if CInt.ulong (millis s1 - time_now s) >? refresh_freq
     then display_frame (bin "000010") (buff (loop cast_overflow E s))
     else []).
Proof.
  cbv zeta. intros Hm Hn.
  pose proof (button_run_encoder cast_overflow E s Hm) as (_ & _ & Ht).
  pose proof (button_fields cast_overflow E s) as (_ & Htn & _ & Hr & _).
  cbv zeta in Htn, Hr.
  rewrite (loop_valid cast_overflow E s Hm Hn). cbv zeta.
  set (s1 := button cast_overflow E s) in *.
  set (s2 := set_current_temp (dht_temperature E (clock s1)) s1).
  assert (Hb : F32.leb (current_temp s2) (cushioned_target s2)
               = F32.leb (dht_temperature E (clock s1))
                   (if relay_pin s
                    then F32.add (target_temp s) half_cushion
                    else F32.sub (target_temp s) half_cushion)).
  { unfold cushioned_target, relayState. cbn [s2 current_temp relay_pin target_temp set_current_temp].
    rewrite Hr, Ht. reflexivity. }
  rewrite Hb.
  set (b := F32.leb _ _).
  pose proof (refresh_fields cast_overflow (switchRelay b s2))
    as (_ & Hm3 & _ & Hr3 & _ & Htr3).
  cbv zeta in Hm3, Hr3, Htr3.
  pose proof (switchRelay_fields b s2) as (_ & Hm2 & Htn2 & _ & Hr2 & Hk2 & Htr2).
  cbv zeta in Hm2, Htn2, Hr2, Hk2, Htr2.
  rewrite Hr3, Hr2, Htr3, Htr2, Hm2.
  unfold millis in *. rewrite Hk2, Htn2.
  cbn [s2 setup_mode time_now clock trace set_current_temp].
  rewrite Hm, Htn, <- app_assoc.
  split; [reflexivity | split; [ | reflexivity ]].
  unfold refresh, millis. rewrite Hk2, Htn2.
  cbn [s2 time_now clock set_current_temp]. rewrite Htn.
  destruct (CInt.ulong (CInt.ulong (clock s1) - time_now s) >? refresh_freq).
  - pose proof (updateDisplay_fields cast_overflow
                  (set_time_now (CInt.ulong (clock s1)) (switchRelay b s2)))
      as (_ & _ & Htn4 & _).
    cbv zeta in Htn4. rewrite Htn4. reflexivity.
  - rewrite Htn2. cbn [s2 time_now set_current_temp]. exact Htn.
Qed.

(** C1: in a Run-mode iteration with a valid reading, the relay command is
    HIGH iff the temperature is at most target + cushion/2 when the relay
    is energized, and iff it is at most target - cushion/2 when it is not
    (cushion/2 is 1.0, in binary32 throughout); an energized relay stays
    so until the temperature exceeds target + cushion/2; a temperature above
    target - cushion/2 and at most target + cushion/2 leaves the relay as it
    is, and with target 25.0 every temperature strictly between 24.0 and
    26.0 does. *)
Theorem hysteresis (cast_overflow : float -> Z) (E : env) (s : state) :
  let s1 := button cast_overflow E s in
  let t := dht_temperature E (clock s1) in
  setup_mode s1 = false ->
  F32.isnan t = false ->
  cushion_temp = F32.literal 20 10 /\
  half_cushion = F32.literal 10 10 /\
  (relay_pin s = true ->
   relay_pin (loop cast_overflow E s)
   = F32.leb t (F32.add (target_temp s) half_cushion)) /\
  (relay_pin s = false ->
   relay_pin (loop cast_overflow E s)
   = F32.leb t (F32.sub (target_temp s) half_cushion)) /\
  (relay_pin s = true ->
   F32.isnan (F32.add (target_temp s) half_cushion) = false ->
   relay_pin (loop cast_overflow E s)
   = negb (F32.ltb (F32.add (target_temp s) half_cushion) t)) /\
  (exists out,
     trace (loop cast_overflow E s)
     = trace s1 ++ Relay (relay_pin (loop cast_overflow E s)) :: out) /\
  (F32.ltb (F32.sub (target_temp s) half_cushion) t = true ->
   F32.leb t (F32.add (target_temp s) half_cushion) = true ->
   relay_pin (loop cast_overflow E s) = relay_pin s) /\
  (target_temp s = F32.literal 250 10 ->
   F32.ltb (F32.literal 240 10) t = true ->
   F32.ltb t (F32.literal 260 10) = true ->
   relay_pin (loop cast_overflow E s) = relay_pin s).
Proof.
  cbv zeta. intros Hm Hn.
  pose proof (loop_relay cast_overflow E s Hm Hn) as (Hr & _ & Htr).
  cbv zeta in Hr, Htr.
  assert (Hband :
            F32.ltb (F32.sub (target_temp s) half_cushion)
                    (dht_temperature E (clock (button cast_overflow E s))) = true ->
            F32.leb (dht_temperature E (clock (button cast_overflow E s)))
                    (F32.add (target_temp s) half_cushion) = true ->
            relay_pin (loop cast_overflow E s) = relay_pin s).
  { intros Hlo Hhi. rewrite Hr. destruct (relay_pin s).
    - exact Hhi.
    - apply ltb_not_leb, Hlo. }
  split; [reflexivity | split; [reflexivity | ]].
  split; [intros Hon; rewrite Hr, Hon; reflexivity | ].
  split; [intros Hoff; rewrite Hr, Hoff; reflexivity | ].
  split; [intros Hon Hfin; rewrite Hr, Hon; apply leb_negb_ltb; assumption | ].
  split; [rewrite Hr; eexists; exact Htr | ].
  split; [exact Hband | ].
  intros H25 Hlo Hhi. apply Hband; rewrite H25.
  - exact Hlo.
  - apply ltb_leb. exact Hhi.
Qed.

Lemma hysteresis_witness :
  relay_pin booted = false /\
  relay_pin (loop no_overflow quiet booted) = true /\
  relay_pin (loop no_overflow warm booted) = relay_pin booted /\
  relay_pin (loop no_overflow warm (loop no_overflow quiet booted))
  = relay_pin (loop no_overflow quiet booted).
Proof.
  split; [reflexivity | ].
  split; [ | split ].
  - destruct (hysteresis no_overflow quiet booted eq_refl eq_refl)
      as (_ & _ & _ & H & _).
    rewrite (H eq_refl). reflexivity.
  - destruct (hysteresis no_overflow warm booted eq_refl eq_refl)
      as (_ & _ & _ & _ & _ & _ & _ & H).
    apply H; reflexivity.
  - destruct (hysteresis no_overflow warm (loop no_overflow quiet booted)
                eq_refl eq_refl)
      as (_ & _ & _ & _ & _ & _ & _ & H).
    apply H; reflexivity.
Defined.

(** ** Sensor failure *)

Lemma loop_nan_fields (cast_overflow : float -> Z) (E : env) (s : state) :
  let s1 := button cast_overflow E s in
  setup_mode s1 = false ->
  F32.isnan (dht_temperature E (clock s1)) = true ->
  relay_pin (loop cast_overflow E s) = relay_pin s /\
  time_now (loop cast_overflow E s) = time_now s /\
  trace (loop cast_overflow E s) = trace s1 ++ err_token.
Proof.
  cbv zeta. intros Hm Hn.
  pose proof (button_fields cast_overflow E s) as (_ & Htn & _ & Hr & _).
  cbv zeta in Htn, Hr.
  rewrite (loop_nan cast_overflow E s Hm Hn).
  cbn [disp_print emit set_current_temp relay_pin time_now trace].
  rewrite Hr, Htn. repeat split; reflexivity.
Qed.

Lemma display_frame_not_nil (mask : Z) (payload : string) (l : list event) :
  l ++ display_frame mask payload <> l.
Proof.
  intros H. rewrite <- (app_nil_r l) in H at 2.
  apply app_inv_head in H. discriminate H.
Qed.

(** C4: in a Run-mode iteration whose reading is NaN the relay pin is left
    as it was and is not written, the token "Err " goes to the display, and
    the iteration ends there: after the bytes of the switch handling, if
    any, the four bytes of the token are all the iteration puts out, and the
    refresh stamp is not touched; when a refresh was due, running the
    refresh check on the state the iteration leaves would still change
    it. *)
Theorem nan_reading_skips_control (cast_overflow : float -> Z) (E : env) (s : state) :
  let s1 := button cast_overflow E s in
  let s' := loop cast_overflow E s in
  setup_mode s1 = false ->
  F32.isnan (dht_temperature E (clock s1)) = true ->
  relay_pin s' = relay_pin s /\
  trace s' = trace s ++
             (if sw_pin E (clock s) then []
              else display_frame (bin "000010") (buff s1) ++ [Wait 1000]) ++
             err_token /\
  err_token = [Tx 69; Tx 114; Tx 114; Tx 32] /\
  time_now s' = time_now s /\
  ((CInt.ulong (millis s' - time_now s') >? refresh_freq) = true ->
   refresh cast_overflow s' <> s').
Proof.
  cbv zeta. intros Hm Hn.
  pose proof (loop_nan_fields cast_overflow E s Hm Hn) as (Hr & Htn & Htr).
  cbv zeta in Hr, Htn, Htr.
  pose proof (button_fields cast_overflow E s) as (Hm1 & _ & _ & _ & _ & Htr1).
  cbv zeta in Hm1, Htr1.
  split; [exact Hr | ].
  split.
  - rewrite Htr, Htr1, <- app_assoc.
    destruct (sw_pin E (clock s)); [reflexivity | ].
    rewrite Hm in Hm1. rewrite <- Hm1. reflexivity.
  - split; [reflexivity | ]. split; [exact Htn | ].
    intros Hdue Heq.
    pose proof (refresh_fields cast_overflow (loop cast_overflow E s))
      as (_ & _ & _ & _ & _ & Htr').
    cbv zeta in Htr'. rewrite Hdue, Heq in Htr'.
    symmetry in Htr'. exact (display_frame_not_nil _ _ _ Htr').
Qed.

Lemma nan_reading_skips_control_witness :
  relay_pin (loop no_overflow unplugged booted) = relay_pin booted /\
  trace (loop no_overflow unplugged booted) = trace booted ++ err_token /\
  time_now (loop no_overflow unplugged booted) = 0 /\
  refresh no_overflow (loop no_overflow unplugged booted)
  <> loop no_overflow unplugged booted.
Proof.
  destruct (nan_reading_skips_control no_overflow unplugged booted eq_refl eq_refl)
    as (Hr & Htr & _ & Htn & Hskip).
  split; [exact Hr | ]. split; [exact Htr | ]. split; [exact Htn | ].
  apply Hskip. reflexivity.
Defined.

Lemma loops_snoc (cast_overflow : float -> Z) (E : env) (n : nat) (s : state) :
  loops cast_overflow E (S n) s
  = loop cast_overflow E (loops cast_overflow E n s).
Proof.
  revert s. induction n as [ | n IH]; intros s.
  - reflexivity.
  - change (loops cast_overflow E (S (S n)) s)
      with (loops cast_overflow E (S n) (loop cast_overflow E s)).
    rewrite IH. reflexivity.
Qed.

(** C10: in Run mode with a NaN reading the token "Err " is written to the
    display in every iteration, whatever the clock and the refresh stamp:
    the bytes end the output of each such iteration, [n] such iterations in
    a row write the token [n] times and nothing else, and never move the
    refresh stamp; whereas with a valid reading and the switch released, an
    iteration writes nothing to the display until the refresh interval has
    passed. *)
Theorem err_token_every_iteration
    (cast_overflow : float -> Z) (E : env) (s : state) :
  (setup_mode (button cast_overflow E s) = false ->
   F32.isnan (dht_temperature E (clock (button cast_overflow E s))) = true ->
   trace (loop cast_overflow E s)
   = trace (button cast_overflow E s) ++ [Tx 69; Tx 114; Tx 114; Tx 32]) /\
  (setup_mode s = false ->
   (forall t, sw_pin E t = true) ->
   (forall t, F32.isnan (dht_temperature E t) = true) ->
   forall n,
     trace (loops cast_overflow E n s) = trace s ++ List.concat (repeat err_token n) /\
     time_now (loops cast_overflow E n s) = time_now s /\
     setup_mode (loops cast_overflow E n s) = false) /\
  (setup_mode s = false ->
   sw_pin E (clock s) = true ->
   F32.isnan (dht_temperature E (clock s)) = false ->
   (CInt.ulong (millis s - time_now s) >? refresh_freq) = false ->
   forall b, ~ In (Tx b) (skipn (List.length (trace s)) (trace (loop cast_overflow E s)))).
Proof.
  split; [ | split ].
  - intros Hm Hn. apply (loop_nan_fields cast_overflow E s Hm Hn).
  - intros Hm Hsw Hnan n. induction n as [ | n (IHtr & IHtn & IHm)].
    + cbn [loops repeat List.concat]. rewrite app_nil_r. auto.
    + rewrite loops_snoc.
      set (sn := loops cast_overflow E n s) in *.
      assert (Hb : button cast_overflow E sn = sn) by apply button_released, Hsw.
      assert (Hm1 : setup_mode (button cast_overflow E sn) = false)
        by (rewrite Hb; exact IHm).
      pose proof (loop_nan_fields cast_overflow E sn Hm1 (Hnan _)) as (_ & Htn & Htr).
      cbv zeta in Htn, Htr. rewrite Hb in Htr.
      pose proof (loop_fields cast_overflow E sn) as (Hm' & _).
      rewrite Htr, Htn, Hm', IHtr, IHtn, <- app_assoc.
      split; [ | auto].
      f_equal. replace (S n) with (n + 1)%nat by lia.
      rewrite repeat_app, concat_app. cbn [repeat List.concat]. rewrite app_nil_r.
      reflexivity.
  - intros Hm Hsw Hn Hdue b.
    assert (Hb : button cast_overflow E s = s) by apply button_released, Hsw.
    assert (Hm1 : setup_mode (button cast_overflow E s) = false)
      by (rewrite Hb; exact Hm).
    assert (Hn1 : F32.isnan (dht_temperature E (clock (button cast_overflow E s))) = false)
      by (rewrite Hb; exact Hn).
    pose proof (loop_relay cast_overflow E s Hm1 Hn1) as (_ & _ & Htr).
    cbv zeta in Htr. rewrite Hb, Hdue in Htr. rewrite Htr.
    rewrite skipn_app, skipn_all, Nat.sub_diag. cbn [skipn app In].
    intros [H | H]; [discriminate H | exact H].
Qed.

Lemma err_token_every_iteration_witness :
  trace (loop no_overflow unplugged booted)
  = trace booted ++ [Tx 69; Tx 114; Tx 114; Tx 32] /\
  trace (loops no_overflow unplugged 3 booted)
  = trace booted ++ List.concat (repeat err_token 3) /\
  ~ In (Tx 50)
      (skipn (List.length (trace (loop no_overflow quiet booted)))
             (trace (loop no_overflow quiet (loop no_overflow quiet booted)))).
Proof.
  split; [ | split ].
  - destruct (err_token_every_iteration no_overflow unplugged booted) as (H & _).
    apply (H eq_refl eq_refl).
  - destruct (err_token_every_iteration no_overflow unplugged booted) as (_ & H & _).
    apply (H eq_refl (fun _ => eq_refl) (fun _ => eq_refl) 3%nat).
  - destruct (err_token_every_iteration no_overflow quiet
                (loop no_overflow quiet booted)) as (_ & _ & H).
    apply (H eq_refl eq_refl eq_refl eq_refl).
Defined.

(** ** Mode switch *)

Lemma loop_switch_ext (cast_overflow : float -> Z) (E : env) (sw : Z -> bool) (s : state) :
  sw (clock s) = sw_pin E (clock s) ->
  loop cast_overflow (with_switch sw E) s = loop cast_overflow E s.
Proof.
  intros H. unfold loop, button, delay.
  cbn [with_switch sw_pin dht_temperature enco_edges].
  rewrite H. reflexivity.
Qed.

Lemma loops_switch_ext (cast_overflow : float -> Z) (E : env) (sw : Z -> bool) (n : nat) :
  forall s,
    (forall t, clock s <= t -> sw t = sw_pin E t) ->
    loops cast_overflow (with_switch sw E) n s = loops cast_overflow E n s.
Proof.
  induction n as [ | n IH]; intros s H; cbn [loops].
  - reflexivity.
  - rewrite loop_switch_ext by (apply H; lia).
    apply IH. intros t Ht. apply H.
    pose proof (clock_mono cast_overflow E s). lia.
Qed.

(** C6: in an iteration that samples the switch pin low, the mode is
    flipped once, by the switch handling, and stays so to the end of the
    iteration; the display is refreshed right after the flip, showing the
    new mode, and a delay of 1000 ms follows; the iteration ends 1000 ms
    later on the clock, so that the pin is next sampled no sooner, and
    whatever the pin does strictly inside that second changes nothing in
    any number of iterations. *)
Theorem button_toggles_once (cast_overflow : float -> Z) (E : env) (s : state) :
  sw_pin E (clock s) = false ->
  let s1 := button cast_overflow E s in
  s1 = delay E 1000
         (updateDisplay cast_overflow (set_setup_mode (negb (setup_mode s)) s)) /\
  setup_mode s1 = negb (setup_mode s) /\
  setup_mode (loop cast_overflow E s) = negb (setup_mode s) /\
  trace s1 = trace s ++
             display_frame (if negb (setup_mode s) then bin "010000" else bin "000010")
                           (buff s1) ++
             [Wait 1000] /\
  clock s1 = clock s + 1000 /\
  clock (loop cast_overflow E s) = clock s + 1000 /\
  (forall sw n,
     (forall t, t <= clock s \/ clock s + 1000 <= t -> sw t = sw_pin E t) ->
     loops cast_overflow (with_switch sw E) n s = loops cast_overflow E n s).
Proof.
  intros Hsw. cbv zeta.
  pose proof (button_fields cast_overflow E s) as (Hm & _ & _ & _ & Hk & Htr).
  pose proof (loop_fields cast_overflow E s) as (Hm' & Hk' & _).
  cbv zeta in Hm, Hk, Htr. rewrite Hsw in Hm, Hk, Htr.
  split; [apply button_pressed, Hsw | ].
  split; [exact Hm | ].
  split; [rewrite Hm'; exact Hm | ].
  split; [exact Htr | ].
  split; [exact Hk | ].
  split; [rewrite Hk'; exact Hk | ].
  intros sw n Hout. destruct n as [ | n]; cbn [loops]; [reflexivity | ].
  rewrite loop_switch_ext by (apply Hout; lia).
  apply loops_switch_ext. intros t Ht. apply Hout.
  rewrite Hk', Hk in Ht. lia.
Qed.

Lemma button_toggles_once_witness :
  sw_pin tapped (clock booted) = false /\
  setup_mode (loop no_overflow tapped booted) = negb (setup_mode booted) /\
  clock (loop no_overflow tapped booted) = clock booted + 1000 /\
  loops no_overflow
        (with_switch (fun t => negb ((3000 <=? t) && (t <? 4000))) tapped) 2 booted
  = loops no_overflow tapped 2 booted.
Proof.
  split; [reflexivity | ].
  destruct (button_toggles_once no_overflow tapped booted eq_refl)
    as (_ & _ & Hm & _ & _ & Hk & Hext).
  split; [exact Hm | ]. split; [exact Hk | ].
  apply (Hext (fun t => negb ((3000 <=? t) && (t <? 4000))) 2%nat).
  intros t Ht.
  change (clock booted) with 3000 in Ht.
  change (sw_pin tapped t) with (negb (t =? 3000)).
  f_equal.
  destruct (Z.leb_spec 3000 t), (Z.ltb_spec t 4000), (Z.eqb_spec t 3000);
    cbn [andb]; try reflexivity; lia.
Defined.

(** * Further properties of the sketch *)

(** ** Display buffer and field *)

Lemma all_from_spec (f : Z -> bool) (n : nat) :
  forall lo, all_from f lo n = true ->
  forall z, lo <= z < lo + Z.of_nat n -> f z = true.
Proof.
  induction n as [ | n IH]; intros lo H z Hz.
  - cbn in Hz. lia.
  - cbn [all_from] in H. apply andb_prop in H. destruct H as [H0 H1].
    destruct (Z.eq_dec z lo) as [-> | Hne]; [exact H0 | ].
    apply (IH (lo + 1) H1). lia.
Qed.

Lemma int_bounds (z : Z) : CInt.INT_MIN <= CInt.int z <= CInt.INT_MAX.
Proof.
  unfold CInt.int, CInt.wrap_signed, CInt.INT_MIN, CInt.INT_MAX.
  change (2 ^ (16 - 1)) with 32768.
  change (2 ^ 16) with 65536.
  pose proof (Z.mod_pos_bound (z + 32768) 65536 eq_refl).
  lia.
Qed.

Lemma float_to_int_range (cast_overflow : float -> Z) (f : float) :
  CInt.INT_MIN <= float_to_int cast_overflow f <= CInt.INT_MAX.
Proof.
  unfold float_to_int.
  destruct (F32.trunc f) as [z | ]; [ | apply int_bounds].
  destruct (CInt.in_int z) eqn:Hz; [ | apply int_bounds].
  unfold CInt.in_int in Hz. apply andb_prop in Hz. destruct Hz as [H1 H2].
  apply Z.leb_le in H1. apply Z.leb_le in H2. lia.
Qed.

Lemma width_check_all : all_from width_check (-32768) (Z.to_nat 65536) = true.
Proof. vm_compute. reflexivity. Qed.

Lemma width_check_int (n : Z) :
  CInt.INT_MIN <= n <= CInt.INT_MAX -> width_check n = true.
Proof.
  intros Hn. apply (all_from_spec _ _ _ width_check_all).
  unfold CInt.INT_MIN, CInt.INT_MAX in Hn. rewrite Z2Nat.id; lia.
Qed.

Lemma updateDisplay_buff (cast_overflow : float -> Z) (s : state) :
  buff (updateDisplay cast_overflow s)
  = if setup_mode s
    then sprintf_T_2d (float_to_int cast_overflow (target_temp s))
    else sprintf_4d (float_to_int cast_overflow
                       (F32.mul (current_temp s) (F32.of_Z 100))).
Proof. unfold updateDisplay. destruct (setup_mode s); reflexivity. Qed.

Lemma length_list_ascii (str : string) :
  List.length (list_ascii_of_string str) = String.length str.
Proof. induction str as [ | c str IH]; cbn; [reflexivity | now rewrite IH]. Qed.

Lemma eqb_reflect_range (b c : bool) (P Q : Prop) :
  Bool.eqb b c = true -> (b = true <-> P) -> (c = true <-> Q) -> (P <-> Q).
Proof. intros H HP HQ. apply Bool.eqb_prop in H. subst c. tauto. Qed.

Lemma range_reflect (lo hi n : Z) :
  (lo <=? n) && (n <=? hi) = true <-> lo <= n <= hi.
Proof. rewrite andb_true_iff, !Z.leb_le. tauto. Qed.

Lemma width_facts (n : Z) :
  CInt.INT_MIN <= n <= CInt.INT_MAX ->
  (String.length (sprintf_4d n) = 4%nat <-> -999 <= n <= 9999) /\
  (4 <= String.length (sprintf_4d n) <= 6)%nat /\
  (String.length (sprintf_T_2d n) = 4%nat <-> -9 <= n <= 99) /\
  (4 <= String.length (sprintf_T_2d n) <= 8)%nat.
Proof.
  intros Hn. pose proof (width_check_int n Hn) as H. unfold width_check in H.
  apply andb_prop in H. destruct H as [H H6].
  apply andb_prop in H. destruct H as [H H5].
  apply andb_prop in H. destruct H as [H H4].
  apply andb_prop in H. destruct H as [H H3].
  apply andb_prop in H. destruct H as [H1 H2].
  apply Nat.leb_le in H2, H3, H5, H6.
  split; [ | split; [lia | split; [ | lia]]].
  - exact (eqb_reflect_range _ _ _ _ H1 (Nat.eqb_eq _ _) (range_reflect _ _ _)).
  - exact (eqb_reflect_range _ _ _ _ H4 (Nat.eqb_eq _ _) (range_reflect _ _ _)).
Qed.

(** X1: whatever the mode and the values, the text [updateDisplay] formats
    has at least 4 characters and, with its terminating zero, fits the 10
    bytes of [buff]; the display line gets the two command bytes and then
    one byte per character. *)
Theorem display_buffer_fits (cast_overflow : float -> Z) (s : state) :
  (4 <= String.length (buff (updateDisplay cast_overflow s)))%nat /\
  (String.length (buff (updateDisplay cast_overflow s)) + 1 <= 10)%nat /\
  List.length (skipn (List.length (trace s)) (trace (updateDisplay cast_overflow s)))
  = (2 + String.length (buff (updateDisplay cast_overflow s)))%nat.
Proof.
  pose proof (updateDisplay_fields cast_overflow s) as (_ & _ & _ & _ & _ & _ & Htr).
  cbv zeta in Htr. rewrite Htr, skipn_app, skipn_all, Nat.sub_diag.
  cbn [skipn app]. unfold display_frame. cbn [List.length].
  rewrite length_map. unfold bytes_of_string. rewrite length_map, length_list_ascii.
  rewrite updateDisplay_buff.
  destruct (setup_mode s).
  - pose proof (width_facts _ (float_to_int_range cast_overflow (target_temp s)))
      as (_ & _ & _ & H).
    repeat split; lia.
  - pose proof (width_facts _ (float_to_int_range cast_overflow
                                 (F32.mul (current_temp s) (F32.of_Z 100))))
      as (_ & H & _).
    repeat split; lia.
Qed.

(** X2: the payload is exactly four characters wide, the width of the
    display, iff the number shown fits its field: -999 to 9999 hundredths
    in Run mode, -9 to 99 degrees in Setup mode; outside it is longer. *)
Theorem display_field_width (cast_overflow : float -> Z) (s : state) :
  (setup_mode s = false ->
   (String.length (buff (updateDisplay cast_overflow s)) = 4%nat <->
    -999 <= float_to_int cast_overflow (F32.mul (current_temp s) (F32.of_Z 100))
         <= 9999)) /\
  (setup_mode s = true ->
   (String.length (buff (updateDisplay cast_overflow s)) = 4%nat <->
    -9 <= float_to_int cast_overflow (target_temp s) <= 99)).
Proof.
  rewrite updateDisplay_buff. split; intros Hm; rewrite Hm.
  - apply (width_facts _ (float_to_int_range cast_overflow _)).
  - apply (width_facts _ (float_to_int_range cast_overflow _)).
Qed.

Lemma display_field_width_witness :
  String.length (buff (updateDisplay no_overflow booted)) = 4%nat /\
  String.length
    (buff (updateDisplay no_overflow
             (set_encoder 0 400 (F32.literal 1000 10) adjusting))) <> 4%nat.
Proof.
  split.
  - destruct (display_field_width no_overflow booted) as (H & _).
    apply (H eq_refl). split; apply Z.leb_le; reflexivity.
  - destruct (display_field_width no_overflow
                (set_encoder 0 400 (F32.literal 1000 10) adjusting)) as (_ & H).
    intros Hl. apply (H eq_refl) in Hl. destruct Hl as [_ Hl].
    apply Z.leb_le in Hl. discriminate Hl.
Defined.

Lemma tenth_check_all : all_from tenth_check (-400) (Z.to_nat 1201) = true.
Proof. vm_compute. reflexivity. Qed.

(** X3: for a current temperature that is the binary32 value nearest to
    [k] tenths of a degree, from -40.0 to 80.0, the hundredths shown in Run
    mode are [10 * k] or one closer to zero: the product with 100 is
    truncated, not rounded, and 2.1 degrees show as 209. *)
Theorem tenths_shown_within_one
    (cast_overflow : float -> Z) (k : Z) (s : state) :
  -400 <= k <= 800 ->
  setup_mode s = false ->
  current_temp s = F32.literal k 10 ->
  exists n,
    buff (updateDisplay cast_overflow s) = sprintf_4d n /\
    (0 <= k -> 10 * k - 1 <= n <= 10 * k) /\
    (k < 0 -> 10 * k <= n <= 10 * k + 1) /\
    (k = 21 -> n = 209).
Proof.
  intros Hk Hm Ht.
  assert (Hc : tenth_check k = true)
    by (apply (all_from_spec _ _ _ tenth_check_all); rewrite Z2Nat.id; lia).
  unfold tenth_check in Hc.
  rewrite updateDisplay_buff, Hm, Ht. unfold float_to_int.
  destruct (F32.trunc (F32.mul (F32.literal k 10) (F32.of_Z 100))) as [n | ] eqn:Hn;
    [ | discriminate Hc].
  apply andb_prop in Hc. destruct Hc as [Hin Hb]. rewrite Hin.
  exists n. split; [reflexivity | ].
  split; [ | split ].
  - intros H0. apply Z.leb_le in H0. rewrite H0 in Hb.
    apply andb_prop in Hb. lia.
  - intros H0. apply Z.leb_gt in H0. rewrite H0 in Hb.
    apply andb_prop in Hb. lia.
  - intros ->. vm_compute in Hn. congruence.
Qed.

Lemma tenths_shown_within_one_witness :
  exists n,
    buff (updateDisplay no_overflow (set_current_temp (F32.literal 21 10) booted))
    = sprintf_4d n /\ n = 209.
Proof.
  destruct (tenths_shown_within_one no_overflow 21
              (set_current_temp (F32.literal 21 10) booted))
    as (n & Hb & _ & _ & Hn).
  - split; apply Z.leb_le; reflexivity.
  - reflexivity.
  - reflexivity.
  - exists n. split; [exact Hb | apply Hn; reflexivity].
Defined.

(** ** What the Setup display shows *)

(** Truncating the quarter of a small integer. *)
Lemma trunc_quarter (s : bool) (p : positive) :
  Zpos p < 2 ^ 24 ->
  F32.trunc (S754_finite s (norm24 p) (Zpos (digits2_pos p) - 24 - 2))
  = Some (cond_Zopp s (Zpos p / 4)).
Proof.
  intros Hp. pose proof (digits_small p Hp) as Hd.
  unfold F32.trunc. f_equal. f_equal.
  rewrite (norm24_value p Hp).
  replace (Zpos (digits2_pos p) - 24 - 2) with (- (24 - Zpos (digits2_pos p) + 2)) by lia.
  rewrite Z.shiftl_opp_r, Z.shiftr_div_pow2 by lia.
  rewrite Z.pow_add_r by lia. change (2 ^ 2) with 4.
  rewrite (Z.mul_comm (2 ^ _) 4).
  rewrite Z.div_mul_cancel_r; [reflexivity | lia | ].
  apply Z.pow_nonzero; lia.
Qed.

Lemma target_shown (cast_overflow : float -> Z) (c : Z) :
  -131072 < c < 131072 ->
  float_to_int cast_overflow (F32.mul (F32.of_Z c) enco_sensitivity) = Z.quot c 4.
Proof.
  intros Hc.
  assert (Hc24 : - 2 ^ 24 < c < 2 ^ 24) by (change (2 ^ 24) with 16777216; lia).
  rewrite (of_Z_small c Hc24). unfold float_to_int.
  destruct c as [ | p | p].
  - reflexivity.
  - assert (Hp : Zpos p < 2 ^ 24) by lia.
    pose proof (digits_small p Hp). pose proof (norm24_digits p Hp).
    rewrite quarter by lia. rewrite (trunc_quarter false p Hp).
    cbn [cond_Zopp]. rewrite Z.quot_div_nonneg by lia.
    replace (CInt.in_int (Zpos p / 4)) with true; [reflexivity | ].
    symmetry. unfold CInt.in_int, CInt.INT_MIN, CInt.INT_MAX.
    apply andb_true_intro. rewrite !Z.leb_le.
    pose proof (Z.div_pos (Zpos p) 4). 
    assert (Zpos p / 4 < 32768) by (apply Z.div_lt_upper_bound; lia). lia.
  - assert (Hp : Zpos p < 2 ^ 24) by lia.
    pose proof (digits_small p Hp). pose proof (norm24_digits p Hp).
    rewrite quarter by lia. rewrite (trunc_quarter true p Hp).
    cbn [cond_Zopp]. change (Zneg p) with (- Zpos p).
    rewrite Z.quot_opp_l by lia. rewrite Z.quot_div_nonneg by lia.
    replace (CInt.in_int (- (Zpos p / 4))) with true; [reflexivity | ].
    symmetry. unfold CInt.in_int, CInt.INT_MIN, CInt.INT_MAX.
    apply andb_true_intro. rewrite !Z.leb_le.
    pose proof (Z.div_pos (Zpos p) 4). 
    assert (Zpos p / 4 < 32768) by (apply Z.div_lt_upper_bound; lia). lia.
Qed.


Lemma quot4_range (c : Z) :
  (-131072 < c < 131072 -> CInt.INT_MIN <= Z.quot c 4 <= CInt.INT_MAX) /\
  (-9 <= Z.quot c 4 <= 99 <-> -40 < c < 400).
Proof.
  unfold CInt.INT_MIN, CInt.INT_MAX. Z.quot_rem_to_equations. lia.
Qed.

(** X4: in Setup mode, with the target derived from a counter below 131072
    in magnitude, the display shows "T " and the counter divided by 4,
    truncated toward zero: four counts to the degree, fractions dropped;
    the payload has the four characters of the display exactly for
    counters above -40 and below 400. *)
Theorem setup_display_shows_whole_degrees
    (cast_overflow : float -> Z) (s : state) :
  setup_mode s = true ->
  target_temp s = F32.mul (F32.of_Z (enco_value s)) enco_sensitivity ->
  -131072 < enco_value s < 131072 ->
  buff (updateDisplay cast_overflow s) = sprintf_T_2d (Z.quot (enco_value s) 4) /\
  (String.length (buff (updateDisplay cast_overflow s)) = 4%nat <->
   -40 < enco_value s < 400).
Proof.
  intros Hm Ht Hc. rewrite updateDisplay_buff, Hm, Ht, (target_shown _ _ Hc).
  split; [reflexivity | ].
  pose proof (quot4_range (enco_value s)) as (Hr & Hq).
  pose proof (width_facts _ (Hr Hc)) as (_ & _ & Hw & _).
  rewrite Hw. exact Hq.
Qed.

Lemma adjusting_inv : encoder_inv adjusting.
Proof.
  unfold encoder_inv.
  split; [split; [apply Z.leb_le | apply Z.ltb_lt]; reflexivity | ].
  split; [split; apply Z.leb_le; reflexivity | reflexivity].
Qed.

Lemma setup_display_shows_whole_degrees_witness :
  buff (updateDisplay no_overflow adjusting) = sprintf_T_2d (Z.quot 100 4) /\
  String.length (buff (updateDisplay no_overflow adjusting)) = 4%nat.
Proof.
  destruct (setup_display_shows_whole_degrees no_overflow adjusting) as (Hb & Hl).
  - reflexivity.
  - reflexivity.
  - split; apply Z.ltb_lt; reflexivity.
  - split; [exact Hb | ]. apply Hl. split; apply Z.ltb_lt; reflexivity.
Defined.

(** ** Encoder steps, bursts and cycles *)

(** One step of the counter moves it by one at most. *)
Lemma next_counter_step (code v : Z) :
  CInt.LONG_MIN < v < CInt.LONG_MAX ->
  v - 1 <= next_counter code v <= v + 1.
Proof.
  intros Hv. unfold next_counter.
  assert (Hup : CInt.long (v + 1) = v + 1) by (apply long_in_range; lia).
  assert (Hdn : CInt.long (v - 1) = v - 1) by (apply long_in_range; lia).
  destruct (code_in code forward_codes); destruct (code_in code backward_codes);
    rewrite ?Hup, ?Hdn; try lia.
  rewrite long_in_range by lia. lia.
Qed.

Lemma updateEncoder_step (msb lsb : bool) (s : state) :
  0 <= enco_prev s < 4 ->
  CInt.LONG_MIN < enco_value s < CInt.LONG_MAX ->
  enco_value s - 1 <= enco_value (updateEncoder msb lsb s) <= enco_value s + 1 /\
  0 <= enco_prev (updateEncoder msb lsb s) < 4.
Proof.
  intros Hp Hv. destruct (setup_mode s) eqn:Hm.
  - rewrite (updateEncoder_setup msb lsb s Hm Hp). cbv zeta.
    cbn [enco_value enco_prev set_encoder]. split.
    + apply next_counter_step, Hv.
    + apply pin_pair_range.
  - rewrite (updateEncoder_run msb lsb s Hm). lia.
Qed.

(** X5: a burst of encoder interrupts moves the counter by at most the
    number of interrupts, as long as it cannot reach the ends of [long], and
    touches neither the mode, nor the relay pin, nor the display line, nor
    the clock, nor the refresh stamp, nor the current temperature, nor the
    buffer. *)
Theorem interrupt_burst_bounded (edges : list (bool * bool)) :
  forall s,
    0 <= enco_prev s < 4 ->
    CInt.LONG_MIN + Z.of_nat (List.length edges) <= enco_value s
      <= CInt.LONG_MAX - Z.of_nat (List.length edges) ->
    let s' := interrupts edges s in
    Z.abs (enco_value s' - enco_value s) <= Z.of_nat (List.length edges) /\
    setup_mode s' = setup_mode s /\
    relay_pin s' = relay_pin s /\
    trace s' = trace s /\
    clock s' = clock s /\
    time_now s' = time_now s /\
    current_temp s' = current_temp s /\
    buff s' = buff s.
Proof.
  induction edges as [ | [msb lsb] rest IH]; intros s Hp Hv; cbv zeta.
  - cbn [interrupts fold_left List.length]. repeat split; try reflexivity.
    rewrite Z.sub_diag. cbn. lia.
  - cbn [List.length] in Hv. rewrite Nat2Z.inj_succ in Hv.
    cbn [interrupts fold_left fst snd List.length]. rewrite Nat2Z.inj_succ.
    assert (Hv1 : CInt.LONG_MIN < enco_value s < CInt.LONG_MAX) by lia.
    pose proof (updateEncoder_step msb lsb s Hp Hv1) as (Hstep & Hp').
    pose proof (updateEncoder_only msb lsb s) as Hfr.
    specialize (IH (updateEncoder msb lsb s) Hp').
    cbv zeta in IH. fold (interrupts rest (updateEncoder msb lsb s)).
    destruct IH as (Hd & Hm & Hr & Htr & Hk & Htn & Hc & Hb); [lia | ].
    rewrite Hm, Hr, Htr, Hk, Htn, Hc, Hb.
    unfold encoder_only in Hfr. rewrite Hfr.
    cbn [setup_mode relay_pin trace clock time_now current_temp buff set_encoder].
    repeat split; try reflexivity. 
    rewrite <- Hfr. lia.
Qed.

Lemma interrupt_burst_bounded_witness :
  Z.abs (enco_value (interrupts [(true, false); (true, true); (true, false)] adjusting)
         - enco_value adjusting) <= 3 /\
  relay_pin (interrupts [(true, false); (true, true); (true, false)] adjusting)
  = relay_pin adjusting.
Proof.
  destruct (interrupt_burst_bounded [(true, false); (true, true); (true, false)]
              adjusting) as (Hd & _ & Hr & _).
  - split; [apply Z.leb_le | apply Z.ltb_lt]; reflexivity.
  - split; apply Z.leb_le; reflexivity.
  - split; [exact Hd | exact Hr].
Defined.


Lemma next_counter_forward (code v : Z) :
  code_in code forward_codes = true ->
  CInt.LONG_MIN <= v < CInt.LONG_MAX ->
  next_counter code v = v + 1.
Proof.
  intros Hf Hv. unfold next_counter. rewrite Hf.
  replace (code_in code backward_codes) with false.
  - apply long_in_range. lia.
  - symmetry. unfold code_in, forward_codes, backward_codes in *.
    cbn [existsb] in *.
    repeat match goal with
           | H : context [code =? ?k] |- _ => destruct (Z.eqb_spec code k); [subst; reflexivity | ]
           end.
    discriminate Hf.
Qed.

Lemma next_counter_backward (code v : Z) :
  code_in code backward_codes = true ->
  CInt.LONG_MIN < v <= CInt.LONG_MAX ->
  next_counter code v = v - 1.
Proof.
  intros Hb Hv. unfold next_counter. rewrite Hb.
  replace (code_in code forward_codes) with false.
  - apply long_in_range. lia.
  - symmetry. unfold code_in, forward_codes, backward_codes in *.
    cbn [existsb] in *.
    repeat match goal with
           | H : context [code =? ?k] |- _ => destruct (Z.eqb_spec code k); [subst; reflexivity | ]
           end.
    discriminate Hb.
Qed.

Lemma next_counter_other (code v : Z) :
  code_in code forward_codes = false ->
  code_in code backward_codes = false ->
  next_counter code v = v.
Proof. intros Hf Hb. unfold next_counter. rewrite Hf, Hb. reflexivity. Qed.

Lemma pin_pair_bits (p : Z) :
  0 <= p < 4 -> pin_pair (pair_msb p) (pair_lsb p) = p.
Proof.
  intros Hp.
  assert (Hc : p = 0 \/ p = 1 \/ p = 2 \/ p = 3) by lia.
  destruct Hc as [-> | [-> | [-> | ->]]]; reflexivity.
Qed.

(** The table read backwards: the reverse of a forward code is a backward
    code, and the other way round; the reverse of any other code is
    neither. *)
Lemma reverse_code (p q : Z) :
  0 <= p < 4 -> 0 <= q < 4 ->
  code_in (transition_code q p) backward_codes
  = code_in (transition_code p q) forward_codes /\
  code_in (transition_code q p) forward_codes
  = code_in (transition_code p q) backward_codes.
Proof.
  intros Hp Hq.
  assert (Hcp : p = 0 \/ p = 1 \/ p = 2 \/ p = 3) by lia.
  assert (Hcq : q = 0 \/ q = 1 \/ q = 2 \/ q = 3) by lia.
  destruct Hcp as [-> | [-> | [-> | ->]]]; destruct Hcq as [-> | [-> | [-> | ->]]];
    split; reflexivity.
Qed.

(** X6: in Setup mode an encoder step followed by the step back to the
    stored pin pair restores the whole state: counter, target and stored
    pair; a forward step is undone by the reverse step and the other way
    round, and a step the tables ignore is ignored in reverse too. *)
Theorem encoder_step_undone (msb lsb : bool) (s : state) :
  setup_mode s = true ->
  encoder_inv s ->
  CInt.LONG_MIN < enco_value s < CInt.LONG_MAX ->
  updateEncoder (pair_msb (enco_prev s)) (pair_lsb (enco_prev s))
                (updateEncoder msb lsb s) = s.
Proof.
  intros Hm (Hp & _ & Ht) Hv.
  pose proof (pin_pair_range msb lsb) as Hq.
  pose proof (reverse_code (enco_prev s) (pin_pair msb lsb) Hp Hq) as (Hrb & Hrf).
  rewrite (updateEncoder_setup msb lsb s Hm Hp). cbv zeta.
  set (v1 := next_counter _ (enco_value s)).
  rewrite updateEncoder_setup by (cbn [setup_mode enco_prev set_encoder]; assumption).
  cbv zeta. cbn [enco_prev enco_value set_encoder]. rewrite (pin_pair_bits _ Hp).
  set (v2 := next_counter _ v1).
  assert (Hv2 : v2 = enco_value s).
  { subst v2 v1.
    destruct (code_in (transition_code (enco_prev s) (pin_pair msb lsb)) forward_codes) eqn:Hf.
    - rewrite (next_counter_forward _ _ Hf) by lia.
      rewrite next_counter_backward by (rewrite ?Hrb; lia || reflexivity). lia.
    - destruct (code_in (transition_code (enco_prev s) (pin_pair msb lsb)) backward_codes) eqn:Hb.
      + rewrite (next_counter_backward _ _ Hb) by lia.
        rewrite next_counter_forward by (rewrite ?Hrf; lia || reflexivity). lia.
      + rewrite (next_counter_other _ _ Hf Hb).
        apply next_counter_other; [rewrite Hrf | rewrite Hrb]; reflexivity. }
  rewrite Hv2, <- Ht. destruct s; reflexivity.
Qed.

Lemma encoder_step_undone_witness :
  enco_value (updateEncoder true false adjusting) = 101 /\
  updateEncoder (pair_msb (enco_prev adjusting)) (pair_lsb (enco_prev adjusting))
                (updateEncoder true false adjusting) = adjusting.
Proof.
  split; [reflexivity | ].
  apply (encoder_step_undone true false adjusting eq_refl adjusting_inv).
  split; apply Z.ltb_lt; reflexivity.
Defined.


Lemma forward_edge (p : Z) (s : state) :
  setup_mode s = true -> enco_prev s = p -> 0 <= p < 4 ->
  CInt.LONG_MIN <= enco_value s < CInt.LONG_MAX ->
  let s' := updateEncoder (pair_msb (forward_pair p)) (pair_lsb (forward_pair p)) s in
  setup_mode s' = true /\ enco_prev s' = forward_pair p /\
  enco_value s' = enco_value s + 1 /\
  target_temp s' = F32.mul (F32.of_Z (enco_value s + 1)) enco_sensitivity.
Proof.
  intros Hm Hp Hr Hv. cbv zeta.
  rewrite updateEncoder_setup by (rewrite ?Hp; assumption). cbv zeta.
  cbn [setup_mode enco_prev enco_value target_temp set_encoder]. rewrite Hp.
  assert (Hc : p = 0 \/ p = 1 \/ p = 2 \/ p = 3) by lia.
  assert (Hn : next_counter
                 (transition_code p (pin_pair (pair_msb (forward_pair p))
                                              (pair_lsb (forward_pair p))))
                 (enco_value s) = enco_value s + 1).
  { apply next_counter_forward; [ | exact Hv].
    destruct Hc as [-> | [-> | [-> | ->]]]; reflexivity. }
  rewrite Hn. repeat split; try assumption.
  destruct Hc as [-> | [-> | [-> | ->]]]; reflexivity.
Qed.

Lemma backward_edge (p : Z) (s : state) :
  setup_mode s = true -> enco_prev s = p -> 0 <= p < 4 ->
  CInt.LONG_MIN < enco_value s <= CInt.LONG_MAX ->
  let s' := updateEncoder (pair_msb (backward_pair p)) (pair_lsb (backward_pair p)) s in
  setup_mode s' = true /\ enco_prev s' = backward_pair p /\
  enco_value s' = enco_value s - 1 /\
  target_temp s' = F32.mul (F32.of_Z (enco_value s - 1)) enco_sensitivity.
Proof.
  intros Hm Hp Hr Hv. cbv zeta.
  rewrite updateEncoder_setup by (rewrite ?Hp; assumption). cbv zeta.
  cbn [setup_mode enco_prev enco_value target_temp set_encoder]. rewrite Hp.
  assert (Hc : p = 0 \/ p = 1 \/ p = 2 \/ p = 3) by lia.
  assert (Hn : next_counter
                 (transition_code p (pin_pair (pair_msb (backward_pair p))
                                              (pair_lsb (backward_pair p))))
                 (enco_value s) = enco_value s - 1).
  { apply next_counter_backward; [ | exact Hv].
    destruct Hc as [-> | [-> | [-> | ->]]]; reflexivity. }
  rewrite Hn. repeat split; try assumption.
  destruct Hc as [-> | [-> | [-> | ->]]]; reflexivity.
Qed.

Lemma pair_step_range (p : Z) :
  0 <= forward_pair p < 4 /\ 0 <= backward_pair p < 4.
Proof.
  unfold forward_pair, backward_pair.
  destruct (p =? 0), (p =? 1), (p =? 2), (p =? 3); lia.
Qed.

Lemma pair_step_cycle (p : Z) :
  0 <= p < 4 ->
  forward_pair (forward_pair (forward_pair (forward_pair p))) = p /\
  backward_pair (backward_pair (backward_pair (backward_pair p))) = p.
Proof.
  intros Hp.
  assert (Hc : p = 0 \/ p = 1 \/ p = 2 \/ p = 3) by lia.
  destruct Hc as [-> | [-> | [-> | ->]]]; split; reflexivity.
Qed.

(** X7: in Setup mode the four edges of one full quadrature cycle, from
    whatever pin pair is stored, move the counter by 4 (forward) or -4
    (backward), bring the stored pair back, and move the target by exactly
    one degree. *)
Theorem full_cycle_is_one_degree (s : state) :
  setup_mode s = true ->
  0 <= enco_prev s < 4 ->
  - 2 ^ 23 < enco_value s < 2 ^ 23 ->
  let up := interrupts (full_cycle forward_pair (enco_prev s)) s in
  let down := interrupts (full_cycle backward_pair (enco_prev s)) s in
  enco_value up = enco_value s + 4 /\
  enco_value down = enco_value s - 4 /\
  enco_prev up = enco_prev s /\
  enco_prev down = enco_prev s /\
  exists q qup qdown,
    F32.value (F32.mul (F32.of_Z (enco_value s)) enco_sensitivity) = Some q /\
    F32.value (target_temp up) = Some qup /\
    F32.value (target_temp down) = Some qdown /\
    (qup == q + 1)%Q /\ (qdown == q - 1)%Q.
Proof.
  intros Hm Hp Hv. change (2 ^ 23) with 8388608 in Hv. cbv zeta.
  unfold full_cycle. cbv zeta. cbn [map interrupts fold_left fst snd].
  pose proof (pair_step_cycle _ Hp) as (Hfc & Hbc).
  set (p := enco_prev s) in *.
  (* forward *)
  pose proof (pair_step_range p) as (Hf1r & Hb1r).
  pose proof (pair_step_range (forward_pair p)) as (Hf2r & _).
  pose proof (pair_step_range (forward_pair (forward_pair p))) as (Hf3r & _).
  pose proof (pair_step_range (backward_pair p)) as (_ & Hb2r).
  pose proof (pair_step_range (backward_pair (backward_pair p))) as (_ & Hb3r).
  unfold CInt.LONG_MIN, CInt.LONG_MAX in *.
  destruct (forward_edge p s Hm eq_refl Hp) as (Hm1 & Hp1 & Hv1 & _);
    [unfold CInt.LONG_MIN, CInt.LONG_MAX; lia | ].
  destruct (forward_edge _ _ Hm1 Hp1 Hf1r) as (Hm2 & Hp2 & Hv2 & _);
    [unfold CInt.LONG_MIN, CInt.LONG_MAX; lia | ].
  destruct (forward_edge _ _ Hm2 Hp2 Hf2r) as (Hm3 & Hp3 & Hv3 & _);
    [unfold CInt.LONG_MIN, CInt.LONG_MAX; lia | ].
  destruct (forward_edge _ _ Hm3 Hp3 Hf3r) as (Hm4 & Hp4 & Hv4 & Ht4);
    [unfold CInt.LONG_MIN, CInt.LONG_MAX; lia | ].
  destruct (backward_edge p s Hm eq_refl Hp) as (Hn1 & Hq1 & Hw1 & _);
    [unfold CInt.LONG_MIN, CInt.LONG_MAX; lia | ].
  destruct (backward_edge _ _ Hn1 Hq1 Hb1r) as (Hn2 & Hq2 & Hw2 & _);
    [unfold CInt.LONG_MIN, CInt.LONG_MAX; lia | ].
  destruct (backward_edge _ _ Hn2 Hq2 Hb2r) as (Hn3 & Hq3 & Hw3 & _);
    [unfold CInt.LONG_MIN, CInt.LONG_MAX; lia | ].
  destruct (backward_edge _ _ Hn3 Hq3 Hb3r) as (Hn4 & Hq4 & Hw4 & Hu4);
    [unfold CInt.LONG_MIN, CInt.LONG_MAX; lia | ].
  rewrite Hv4, Hw4, Ht4, Hu4, Hv3, Hw3, Hv2, Hw2, Hv1, Hw1, Hp4, Hq4, Hfc, Hbc.
  split; [lia | ]. split; [lia | ]. split; [reflexivity | ]. split; [reflexivity | ].
  destruct (target_exact (enco_value s)) as (q & Hq & Hqe);
    [change (2 ^ 24) with 16777216; lia | ].
  destruct (target_exact (enco_value s + 1 + 1 + 1 + 1)) as (qu & Hqu & Hque);
    [change (2 ^ 24) with 16777216; lia | ].
  destruct (target_exact (enco_value s - 1 - 1 - 1 - 1)) as (qd & Hqd & Hqde);
    [change (2 ^ 24) with 16777216; lia | ].
  exists q, qu, qd. repeat split; try assumption.
  - rewrite Hque, Hqe. unfold Qeq, Qplus. cbn [Qnum Qden]. lia.
  - rewrite Hqde, Hqe. unfold Qeq, Qminus, Qplus, Qopp. cbn [Qnum Qden]. lia.
Qed.

Lemma full_cycle_is_one_degree_witness :
  enco_value (interrupts (full_cycle forward_pair (enco_prev adjusting)) adjusting)
  = enco_value adjusting + 4 /\
  enco_value (interrupts (full_cycle backward_pair (enco_prev adjusting)) adjusting)
  = enco_value adjusting - 4.
Proof.
  destruct (full_cycle_is_one_degree adjusting) as (Hu & Hd & _).
  - reflexivity.
  - split; [apply Z.leb_le | apply Z.ltb_lt]; reflexivity.
  - split; apply Z.ltb_lt; reflexivity.
  - split; [exact Hu | exact Hd].
Defined.


(** ** Modes, refresh and control *)

Lemma no_relay_in_frame (lvl : bool) (mask : Z) (payload : string) :
  ~ In (Relay lvl) (display_frame mask payload).
Proof.
  unfold display_frame. cbn [In]. intros [H | [H | H]]; try discriminate H.
  apply in_map_iff in H. destruct H as (b & Hb & _). discriminate Hb.
Qed.

(** X8: an iteration that leaves the switch handling in Setup mode does
    not read the sensor and does not command the relay: the relay pin and
    the current temperature are as before and no relay write is traced;
    with the switch released the relay keeps its level for any number of
    iterations in Setup mode. *)
Theorem setup_mode_suspends_control
    (cast_overflow : float -> Z) (E : env) (s : state) :
  (setup_mode (button cast_overflow E s) = true ->
   relay_pin (loop cast_overflow E s) = relay_pin s /\
   current_temp (loop cast_overflow E s) = current_temp s /\
   forall lvl,
     ~ In (Relay lvl)
          (skipn (List.length (trace s)) (trace (loop cast_overflow E s)))) /\
  (setup_mode s = true ->
   (forall t, sw_pin E t = true) ->
   forall n,
     setup_mode (loops cast_overflow E n s) = true /\
     relay_pin (loops cast_overflow E n s) = relay_pin s).
Proof.
  assert (Hone : forall s0,
             setup_mode (button cast_overflow E s0) = true ->
             relay_pin (loop cast_overflow E s0) = relay_pin s0 /\
             current_temp (loop cast_overflow E s0) = current_temp s0 /\
             forall lvl,
               ~ In (Relay lvl)
                    (skipn (List.length (trace s0)) (trace (loop cast_overflow E s0)))).
  { intros s0 Hm. rewrite (loop_setup cast_overflow E s0 Hm).
    pose proof (button_fields cast_overflow E s0) as (_ & _ & Hc & Hr & _ & Htr).
    pose proof (refresh_fields cast_overflow (button cast_overflow E s0))
      as (_ & _ & Hc' & Hr' & _ & Htr').
    cbv zeta in *. rewrite Hr', Hc', Hr, Hc, Htr', Htr.
    split; [reflexivity | split; [reflexivity | ]].
    intros lvl. rewrite <- app_assoc, skipn_app, skipn_all, Nat.sub_diag.
    cbn [skipn app]. intros Hin. apply in_app_or in Hin.
    destruct Hin as [Hin | Hin].
    - destruct (sw_pin E (clock s0)); [exact Hin | ].
      apply in_app_or in Hin. destruct Hin as [Hin | [Hin | Hin]].
      + exact (no_relay_in_frame _ _ _ Hin).
      + discriminate Hin.
      + exact Hin.
    - destruct (CInt.ulong _ >? refresh_freq); [ | exact Hin].
      exact (no_relay_in_frame _ _ _ Hin). }
  split; [apply Hone | ].
  intros Hm Hsw n. induction n as [ | n (IHm & IHr)].
  - cbn [loops]. auto.
  - rewrite loops_snoc. set (sn := loops cast_overflow E n s) in *.
    assert (Hb : button cast_overflow E sn = sn) by apply button_released, Hsw.
    assert (Hm1 : setup_mode (button cast_overflow E sn) = true)
      by (rewrite Hb; exact IHm).
    destruct (Hone sn Hm1) as (Hr & _).
    pose proof (loop_fields cast_overflow E sn) as (Hm' & _).
    rewrite Hm', Hr. auto.
Qed.

Lemma setup_mode_suspends_control_witness :
  relay_pin (loop no_overflow quiet adjusting) = relay_pin adjusting /\
  current_temp (loop no_overflow quiet adjusting) = current_temp adjusting /\
  relay_pin (loops no_overflow quiet 3 adjusting) = relay_pin adjusting.
Proof.
  destruct (setup_mode_suspends_control no_overflow quiet adjusting) as (H1 & Hn).
  destruct (H1 eq_refl) as (Hr & Hc & _).
  destruct (Hn eq_refl (fun _ => eq_refl) 3%nat) as (_ & Hr3).
  split; [exact Hr | split; [exact Hc | exact Hr3]].
Defined.


Lemma ulong_elapsed (now stamp : Z) :
  0 <= now - stamp < 2 ^ 32 ->
  CInt.ulong (CInt.ulong now - CInt.ulong stamp) = now - stamp.
Proof.
  intros H. unfold CInt.ulong. rewrite <- Zminus_mod. apply Z.mod_small, H.
Qed.

(** X9: the refresh check measures the time since the last refresh
    correctly across the wrap of the 32-bit millisecond counter: with the
    stamp taken at [stamp] and less than 2^32 ms ago, nothing happens up to
    100 ms, and past 100 ms the display is refreshed once and the stamp
    moved to the current time, after which a second check at the same time
    does nothing. *)
Theorem refresh_counts_elapsed_time
    (cast_overflow : float -> Z) (stamp : Z) (s : state) :
  time_now s = CInt.ulong stamp ->
  0 <= clock s - stamp < 2 ^ 32 ->
  (clock s - stamp <= refresh_freq -> refresh cast_overflow s = s) /\
  (refresh_freq < clock s - stamp ->
   time_now (refresh cast_overflow s) = CInt.ulong (clock s) /\
   trace (refresh cast_overflow s)
   = trace s ++
     display_frame (if setup_mode s then bin "010000" else bin "000010")
                   (buff (refresh cast_overflow s)) /\
   refresh cast_overflow (refresh cast_overflow s) = refresh cast_overflow s).
Proof.
  intros Hstamp Hel.
  assert (Hdue : CInt.ulong (millis s - time_now s) = clock s - stamp)
    by (unfold millis; rewrite Hstamp; apply ulong_elapsed, Hel).
  split; intros Hcmp.
  - unfold refresh. rewrite Hdue.
    replace (clock s - stamp >? refresh_freq) with false; [reflexivity | ].
    symmetry. rewrite Z.gtb_ltb. apply Z.ltb_ge. exact Hcmp.
  - assert (Hgt : (clock s - stamp >? refresh_freq) = true)
      by (rewrite Z.gtb_ltb; apply Z.ltb_lt; exact Hcmp).
    pose proof (refresh_fields cast_overflow s) as (_ & _ & _ & _ & Hk & Htr).
    cbv zeta in Hk, Htr. rewrite Hdue, Hgt in Htr.
    assert (Htn : time_now (refresh cast_overflow s) = CInt.ulong (clock s)).
    { unfold refresh. rewrite Hdue, Hgt.
      pose proof (updateDisplay_fields cast_overflow (set_time_now (millis s) s))
        as (_ & _ & Htn & _).
      cbv zeta in Htn. rewrite Htn. reflexivity. }
    split; [exact Htn | split; [exact Htr | ]].
    set (s1 := refresh cast_overflow s) in *.
    unfold refresh at 1. unfold millis. rewrite Htn, Hk.
    rewrite ulong_elapsed by (rewrite Z.sub_diag; cbn; lia).
    rewrite Z.sub_diag. reflexivity.
Qed.

Lemma refresh_counts_elapsed_time_witness :
  clock wrapped = 2 ^ 32 + 100 /\
  time_now wrapped = 2 ^ 32 - 50 /\
  time_now (refresh no_overflow wrapped) = 100.
Proof.
  split; [reflexivity | split; [reflexivity | ]].
  destruct (refresh_counts_elapsed_time no_overflow (2 ^ 32 - 50) wrapped) as (_ & H).
  - reflexivity.
  - split; [apply Z.leb_le | apply Z.ltb_lt]; reflexivity.
  - destruct H as (Htn & _); [apply Z.ltb_lt; reflexivity | ].
    exact Htn.
Defined.


Lemma SFcompare_lt_trans (a b c : float) :
  SFcompare a b = Some Lt -> SFcompare b c = Some Lt -> SFcompare a c = Some Lt.
Proof.
  destruct a as [sa | sa | | sa ma ea], b as [sb | sb | | sb mb eb],
           c as [sc | sc | | sc mc ec];
    try destruct sa; try destruct sb; try destruct sc;
    cbn [SFcompare]; try discriminate; try reflexivity; intros Hab Hbc;
    injection Hab as Hab; injection Hbc as Hbc; f_equal.
  - destruct (Z.compare_spec ea eb), (Z.compare_spec eb ec), (Z.compare_spec ea ec);
      try discriminate; try lia; try reflexivity; subst;
      cbn [CompOpp] in *;
      rewrite ?Pos.compare_cont_spec in *; cbn [Pos.switch_Eq] in *;
      destruct (Pos.compare_spec ma mb), (Pos.compare_spec mb mc), (Pos.compare_spec ma mc);
      cbn [CompOpp] in *; try discriminate; try lia; try reflexivity.
  - destruct (Z.compare_spec ea eb), (Z.compare_spec eb ec), (Z.compare_spec ea ec);
      try discriminate; try lia; try reflexivity; subst;
      rewrite ?Pos.compare_cont_spec in *; cbn [Pos.switch_Eq] in *;
      destruct (Pos.compare_spec ma mb), (Pos.compare_spec mb mc), (Pos.compare_spec ma mc);
      try discriminate; try lia; try reflexivity.
Qed.

Lemma SFcompare_eq_lt_trans (a b c : float) :
  SFcompare a b = Some Eq -> SFcompare b c = Some Lt -> SFcompare a c = Some Lt.
Proof.
  destruct a as [sa | sa | | sa ma ea], b as [sb | sb | | sb mb eb],
           c as [sc | sc | | sc mc ec];
    try destruct sa; try destruct sb; try destruct sc;
    cbn [SFcompare]; try discriminate; try reflexivity; intros Hab Hbc;
    injection Hab as Hab; injection Hbc as Hbc; f_equal.
  - destruct (Z.compare_spec ea eb), (Z.compare_spec eb ec), (Z.compare_spec ea ec);
      try discriminate; try lia; try reflexivity; subst;
      cbn [CompOpp] in *;
      rewrite ?Pos.compare_cont_spec in *; cbn [Pos.switch_Eq] in *;
      destruct (Pos.compare_spec ma mb), (Pos.compare_spec mb mc), (Pos.compare_spec ma mc);
      cbn [CompOpp] in *; try discriminate; try lia; try reflexivity.
  - destruct (Z.compare_spec ea eb), (Z.compare_spec eb ec), (Z.compare_spec ea ec);
      try discriminate; try lia; try reflexivity; subst;
      rewrite ?Pos.compare_cont_spec in *; cbn [Pos.switch_Eq] in *;
      destruct (Pos.compare_spec ma mb), (Pos.compare_spec mb mc), (Pos.compare_spec ma mc);
      try discriminate; try lia; try reflexivity.
Qed.

Lemma ltb_trans (a b c : float) :
  F32.ltb a b = true -> F32.ltb b c = true -> F32.ltb a c = true.
Proof.
  unfold F32.ltb, SFltb. intros Hab Hbc.
  destruct (SFcompare a b) as [[ | | ] | ] eqn:H1; try discriminate.
  destruct (SFcompare b c) as [[ | | ] | ] eqn:H2; try discriminate.
  rewrite (SFcompare_lt_trans a b c H1 H2). reflexivity.
Qed.

Lemma leb_ltb_trans (a b c : float) :
  F32.leb a b = true -> F32.ltb b c = true -> F32.ltb a c = true.
Proof.
  unfold F32.leb, F32.ltb, SFleb, SFltb. intros Hab Hbc.
  destruct (SFcompare b c) as [[ | | ] | ] eqn:H2; try discriminate.
  destruct (SFcompare a b) as [[ | | ] | ] eqn:H1; try discriminate.
  - rewrite (SFcompare_eq_lt_trans a b c H1 H2). reflexivity.
  - rewrite (SFcompare_lt_trans a b c H1 H2). reflexivity.
Qed.

(** X10: in a Run-mode iteration with a valid reading and the lower
    threshold below the upper one, a temperature above target + cushion/2
    switches the relay off and a temperature at or below target - cushion/2
    switches it on, whatever the relay was. *)
Theorem control_decides_outside_band
    (cast_overflow : float -> Z) (E : env) (s : state) :
  let s1 := button cast_overflow E s in
  let t := dht_temperature E (clock s1) in
  let low := F32.sub (target_temp s) half_cushion in
  let high := F32.add (target_temp s) half_cushion in
  setup_mode s1 = false ->
  F32.isnan t = false ->
  F32.ltb low high = true ->
  (F32.ltb high t = true -> relay_pin (loop cast_overflow E s) = false) /\
  (F32.leb t low = true -> relay_pin (loop cast_overflow E s) = true).
Proof.
  cbv zeta. intros Hm Hn Hgap.
  pose proof (loop_relay cast_overflow E s Hm Hn) as (Hr & _).
  cbv zeta in Hr. rewrite Hr.
  split; intros Ht; destruct (relay_pin s).
  - apply ltb_not_leb, Ht.
  - apply ltb_not_leb. exact (ltb_trans _ _ _ Hgap Ht).
  - apply ltb_leb. exact (leb_ltb_trans _ _ _ Ht Hgap).
  - exact Ht.
Qed.

Lemma control_decides_outside_band_witness :
  relay_pin (loop no_overflow quiet booted) = true /\
  relay_pin (loop no_overflow
               hot (loop no_overflow quiet booted)) = false.
Proof.
  split.
  - destruct (control_decides_outside_band no_overflow quiet booted
                eq_refl eq_refl eq_refl) as (_ & H).
    apply H. reflexivity.
  - destruct (control_decides_outside_band no_overflow hot
                (loop no_overflow quiet booted) eq_refl eq_refl eq_refl) as (H & _).
    apply H. reflexivity.
Defined.

(** X11: the mode after an iteration is the mode before it, flipped iff
    the switch pin was sampled low; with the switch held down the mode
    alternates from one iteration to the next and each iteration takes
    1000 ms; with the switch released the mode never changes. *)
Theorem switch_held_or_released
    (cast_overflow : float -> Z) (E : env) (s : state) (n : nat) :
  setup_mode (loop cast_overflow E s)
  = xorb (setup_mode s) (negb (sw_pin E (clock s))) /\
  ((forall t, sw_pin E t = false) ->
   setup_mode (loops cast_overflow E n s)
   = (if Nat.even n then setup_mode s else negb (setup_mode s)) /\
   clock (loops cast_overflow E n s) = clock s + 1000 * Z.of_nat n) /\
  ((forall t, sw_pin E t = true) ->
   setup_mode (loops cast_overflow E n s) = setup_mode s /\
   clock (loops cast_overflow E n s) = clock s).
Proof.
  split.
  { pose proof (loop_fields cast_overflow E s) as (Hm & _).
    pose proof (button_fields cast_overflow E s) as (Hm' & _).
    cbv zeta in Hm'. rewrite Hm, Hm'.
    destruct (sw_pin E (clock s)), (setup_mode s); reflexivity. }
  split; intros Hsw.
  - induction n as [ | n (IHm & IHk)].
    + cbn [loops Nat.even]. split; [reflexivity | lia].
    + rewrite loops_snoc. set (sn := loops cast_overflow E n s) in *.
      pose proof (loop_fields cast_overflow E sn) as (Hm & Hk & _).
      pose proof (button_fields cast_overflow E sn) as (Hm' & _ & _ & _ & Hk' & _).
      cbv zeta in Hm', Hk'. rewrite (Hsw (clock sn)) in Hm', Hk'.
      rewrite Hm, Hk, Hm', Hk', IHm, IHk, Nat.even_succ, <- Nat.negb_even.
      split; [ | lia].
      destruct (Nat.even n), (setup_mode s); reflexivity.
  - induction n as [ | n (IHm & IHk)].
    + cbn [loops]. split; reflexivity.
    + rewrite loops_snoc. set (sn := loops cast_overflow E n s) in *.
      pose proof (loop_fields cast_overflow E sn) as (Hm & Hk & _).
      rewrite Hm, Hk, (button_released cast_overflow E sn (Hsw _)).
      split; assumption.
Qed.

Lemma switch_held_or_released_witness :
  setup_mode (loops no_overflow held 3 booted) = true /\
  clock (loops no_overflow held 3 booted) = 6000 /\
  setup_mode (loops no_overflow quiet 3 booted) = false.
Proof.
  destruct (switch_held_or_released no_overflow held booted 3) as (_ & H & _).
  destruct (H (fun _ => eq_refl)) as (Hm & Hk).
  destruct (switch_held_or_released no_overflow quiet booted 3) as (_ & _ & H').
  destruct (H' (fun _ => eq_refl)) as (Hm' & _).
  split; [exact Hm | split; [exact Hk | exact Hm']].
Defined.

(** Iterations without a reading, switch released, in Run mode. *)
Lemma outage_fields (cast_overflow : float -> Z) (E : env) (s : state) (n : nat) :
  setup_mode s = false ->
  (forall t, sw_pin E t = true) ->
  (forall t, F32.isnan (dht_temperature E t) = true) ->
  let s' := loops cast_overflow E n s in
  setup_mode s' = false /\ relay_pin s' = relay_pin s /\ clock s' = clock s /\
  time_now s' = time_now s /\ encoder_same s s'.
Proof.
  intros Hm Hsw Hnan. cbv zeta.
  induction n as [ | n (IHm & IHr & IHk & IHt & IHe)].
  - cbn [loops]. unfold encoder_same. repeat split; try reflexivity; assumption.
  - rewrite loops_snoc. set (sn := loops cast_overflow E n s) in *.
    assert (Hb : button cast_overflow E sn = sn) by apply button_released, Hsw.
    assert (Hm1 : setup_mode (button cast_overflow E sn) = false)
      by (rewrite Hb; exact IHm).
    pose proof (loop_nan_fields cast_overflow E sn Hm1 (Hnan _)) as (Hr & Htn & _).
    pose proof (loop_fields cast_overflow E sn) as (Hm' & Hk' & He').
    cbv zeta in Hr, Htn. rewrite Hb in Hm', Hk', He'.
    rewrite Hm', Hr, Hk', Htn.
    unfold encoder_same in *. destruct He' as (H1 & H2 & H3).
    rewrite H1, H2, H3. tauto.
Qed.

(** X12: any number of Run-mode iterations without a valid reading leave
    the relay pin and the target as they were, and the first iteration with
    a valid reading after them commands the relay exactly as it would have
    without the outage. *)
Theorem outage_leaves_control_untouched
    (cast_overflow : float -> Z) (E0 E : env) (s : state) (n : nat) :
  setup_mode s = false ->
  (forall t, sw_pin E0 t = true) ->
  (forall t, F32.isnan (dht_temperature E0 t) = true) ->
  sw_pin E (clock s) = true ->
  F32.isnan (dht_temperature E (clock s)) = false ->
  relay_pin (loops cast_overflow E0 n s) = relay_pin s /\
  target_temp (loops cast_overflow E0 n s) = target_temp s /\
  relay_pin (loop cast_overflow E (loops cast_overflow E0 n s))
  = relay_pin (loop cast_overflow E s).
Proof.
  intros Hm Hsw0 Hnan Hsw Hval.
  pose proof (outage_fields cast_overflow E0 s n Hm Hsw0 Hnan)
    as (Hm' & Hr & Hk & _ & _ & _ & Ht).
  cbv zeta in Hm', Hr, Hk, Ht.
  set (s' := loops cast_overflow E0 n s) in *.
  split; [exact Hr | split; [exact Ht | ]].
  assert (Hb : button cast_overflow E s = s) by apply button_released, Hsw.
  assert (Hb' : button cast_overflow E s' = s')
    by (apply button_released; rewrite Hk; exact Hsw).
  assert (H1 : setup_mode (button cast_overflow E s) = false) by (rewrite Hb; exact Hm).
  assert (H1' : setup_mode (button cast_overflow E s') = false)
    by (rewrite Hb'; exact Hm').
  pose proof (loop_relay cast_overflow E s H1) as Hl. cbv zeta in Hl.
  pose proof (loop_relay cast_overflow E s' H1') as Hl'. cbv zeta in Hl'.
  rewrite Hb in Hl. rewrite Hb', Hk in Hl'.
  destruct (Hl Hval) as (-> & _). destruct (Hl' Hval) as (-> & _).
  rewrite Hr, Ht. reflexivity.
Qed.

Lemma outage_leaves_control_untouched_witness :
  relay_pin (loop no_overflow quiet (loops no_overflow unplugged 5 booted))
  = relay_pin (loop no_overflow quiet booted).
Proof.
  apply (outage_leaves_control_untouched no_overflow unplugged quiet booted 5
           eq_refl (fun _ => eq_refl) (fun _ => eq_refl) eq_refl eq_refl).
Defined.
